(** * Polaris instance-liveness core: heartbeat checker, beat caches,
      heartbeat RPC access and the maintenance job runner.

    A shallow embedding of
      - package heartbeatmemory (MemoryHealthChecker),
      - plugin/healthchecker/leader/beat_cache.go,
      - apiserver/grpcserver/discover/v1/heartbeat_access.go,
      - admin/job/job.go,
    with the properties of the specification proved about it. *)

From stdpp Require Import gmap strings list fin_maps.
From Stdlib Require Import ZArith Lia.

Local Open Scope Z_scope.

(** ** Go's int64 *)

(** An int64 is a [Z] in [-2^63, 2^63); arithmetic wraps around. *)
Module Int64.

Definition min_int : Z := - 2 ^ 63.
Definition max_int : Z := 2 ^ 63 - 1.

Definition in_range (z : Z) : Prop := min_int <= z <= max_int.

(** Two's complement wrap-around of an arbitrary integer. *)
Definition wrap (z : Z) : Z := (z + 2 ^ 63) mod 2 ^ 64 - 2 ^ 63.

(** Go's [a - b] on int64. *)
Definition sub (a b : Z) : Z := wrap (a - b).

(** Go's [a / b] on int64 truncates towards zero. *)
Definition div (a b : Z) : Z := wrap (Z.quot a b).

End Int64.

(** ** Go values shared by the packages *)

(** A Go call returning [(T, error)]: either the value or a non-nil error.
    Errors are represented by their message. *)
Inductive result (A : Type) : Type :=
| Ok (a : A)
| Err (e : string).
Arguments Ok {A} a.
Arguments Err {A} e.

(** A Go computation that may stop on a run-time panic. *)
Inductive outcome (A : Type) : Type :=
| Returned (a : A)
| Panicked (msg : string).
Arguments Returned {A} a.
Arguments Panicked {A} msg.

Definition nil_dereference : string :=
  "invalid memory address or nil pointer dereference".

(** ** package plugin: requests and responses of a health checker

    The struct declarations live in the plugin package; the fields are the
    ones the checker and the RPC layer read and write. *)
Module Plugin.

Module QueryRequest.
Record t : Type := mk {
    InstanceId : string;
    Host : string;
    Port : Z;
    Healthy : bool
  }.
End QueryRequest.

Module QueryResponse.
Record t : Type := mk {
    Server : string;
    LastHeartbeatSec : Z;
    Count : Z;
    Exists : bool
  }.
End QueryResponse.

Module ReportRequest.
Record t : Type := mk {
    Query : QueryRequest.t;       (* embedded QueryRequest *)
    LocalHost : string;
    CurTimeSec : Z;
    Count : Z
  }.
Definition InstanceId (r : t) : string := QueryRequest.InstanceId (Query r).
End ReportRequest.

Module CheckRequest.
Record t : Type := mk {
    Query : QueryRequest.t;       (* embedded QueryRequest *)
    ExpireDurationSec : Z;        (* unsigned seconds, converted with int64(..) *)
    CurTimeSec : Z                (* the value the CurTimeSec() callback returns *)
  }.
Definition InstanceId (r : t) : string := QueryRequest.InstanceId (Query r).
Definition Healthy (r : t) : bool := QueryRequest.Healthy (Query r).
End CheckRequest.

Module CheckResponse.
Record t : Type := mk {
    Healthy : bool;
    LastHeartbeatTimeSec : Z;
    StayUnchanged : bool
  }.
Definition set_Healthy (b : bool) (r : t) : t :=
    mk b (LastHeartbeatTimeSec r) (StayUnchanged r).
Definition set_StayUnchanged (b : bool) (r : t) : t :=
    mk (Healthy r) (LastHeartbeatTimeSec r) b.
End CheckResponse.

(** The methods of the HealthChecker interface that the heartbeat RPCs call,
    over the checker's own state [C]. *)
Class HealthChecker (C : Type) : Type := {
  Query : C -> QueryRequest.t -> C * result QueryResponse.t;
  Delete : C -> string -> C * option string
}.

End Plugin.

(** ** package heartbeatmemory *)
Module HeartbeatMemory.
Import Plugin.

Record HeartbeatRecord : Type := mkHeartbeatRecord {
  Server : string;
  CurTimeSec : Z;
  Count : Z
}.

(** [hbRecords] is the sync.Map from instance id to record;
    [suspendTimeSec] is read and written with atomic loads and stores. *)
Record MemoryHealthChecker : Type := mkMemoryHealthChecker {
  hbRecords : gmap string HeartbeatRecord;
  suspendTimeSec : Z
}.

Definition Initialize (r : MemoryHealthChecker) : MemoryHealthChecker :=
  mkMemoryHealthChecker ∅ (suspendTimeSec r).

Definition Report (r : MemoryHealthChecker) (request : ReportRequest.t)
  : MemoryHealthChecker * option string :=
  let record := mkHeartbeatRecord (ReportRequest.LocalHost request)
                                  (ReportRequest.CurTimeSec request)
                                  (ReportRequest.Count request) in
  (mkMemoryHealthChecker
     (<[ReportRequest.InstanceId request := record]> (hbRecords r))
     (suspendTimeSec r),
   None).

(** Both struct literals leave [Exists] out, so it keeps Go's zero value. *)
Definition Query (r : MemoryHealthChecker) (request : QueryRequest.t)
  : result QueryResponse.t :=
  match hbRecords r !! QueryRequest.InstanceId request with
  | None => Ok (QueryResponse.mk "" 0 0 false)
  | Some record =>
      Ok (QueryResponse.mk (Server record) (CurTimeSec record) (Count record) false)
  end.

Definition SuspendTimeSec (r : MemoryHealthChecker) : Z := suspendTimeSec r.

(** [nowMilli] is what commontime.CurrentMillisecond() returns at the call. *)
Definition skipCheck (r : MemoryHealthChecker) (nowMilli : Z)
    (instanceId : string) (expireDurationSec : Z) : bool :=
  let suspendTimeSec := SuspendTimeSec r in
  let localCurTimeSec := Int64.div nowMilli 1000 in
  if (0 <? suspendTimeSec) && (suspendTimeSec <=? localCurTimeSec)
     && (Int64.sub localCurTimeSec suspendTimeSec <? expireDurationSec)
  then true
  else false.

Definition Check (r : MemoryHealthChecker) (nowMilli : Z) (request : CheckRequest.t)
  : result CheckResponse.t :=
  match Query r (CheckRequest.Query request) with
  | Err err => Err err
  | Ok queryResp =>
      let lastHeartbeatTime := QueryResponse.LastHeartbeatSec queryResp in
      let checkResp := CheckResponse.mk false lastHeartbeatTime false in
      let curTimeSec := CheckRequest.CurTimeSec request in
      if skipCheck r nowMilli (CheckRequest.InstanceId request)
                   (CheckRequest.ExpireDurationSec request)
      then Ok (CheckResponse.set_StayUnchanged true checkResp)
      else if (lastHeartbeatTime <? curTimeSec)
              && (CheckRequest.ExpireDurationSec request
                  <=? Int64.sub curTimeSec lastHeartbeatTime)
      then
        let checkResp := CheckResponse.set_Healthy false checkResp in
        if CheckRequest.Healthy request
        then Ok checkResp
        else Ok (CheckResponse.set_StayUnchanged true checkResp)
      else
        let checkResp := CheckResponse.set_Healthy true checkResp in
        if negb (CheckRequest.Healthy request)
        then Ok checkResp
        else Ok (CheckResponse.set_StayUnchanged true checkResp)
  end.

Definition Delete (r : MemoryHealthChecker) (id : string)
  : MemoryHealthChecker * option string :=
  (mkMemoryHealthChecker (delete id (hbRecords r)) (suspendTimeSec r), None).

Definition Suspend (r : MemoryHealthChecker) (nowMilli : Z) : MemoryHealthChecker :=
  let curTimeMilli := Int64.div nowMilli 1000 in
  mkMemoryHealthChecker (hbRecords r) curTimeMilli.

#[export] Instance MemoryHealthChecker_HealthChecker
  : HealthChecker MemoryHealthChecker := {|
  Plugin.Query r request := (r, Query r request);
  Plugin.Delete := Delete
|}.

End HeartbeatMemory.

(** ** package apiservice: the wire messages of the heartbeat RPCs

    Generated protobuf structs of the specification package. A repeated
    message field is a slice of pointers: [None] is a nil element. *)
Module Apiservice.

(** HealthCheck_HEARTBEAT of the HealthCheck type enum. *)
Definition HealthCheck_HEARTBEAT : Z := 1.

Module HeartbeatRecord.
Record t : Type := mk {
  InstanceId : string;
  LastHeartbeatSec : Z;
  Exist : bool
}.
End HeartbeatRecord.

Module InstanceHeartbeat.
Record t : Type := mk {
  InstanceId : string;
  Service : string;
  Namespace : string;
  Host : string;
  Port : Z
}.
End InstanceHeartbeat.

Module HeartbeatsRequest.
Record t : Type := mk { Heartbeats : list (option InstanceHeartbeat.t) }.
End HeartbeatsRequest.

Module GetHeartbeatsRequest.
Record t : Type := mk { InstanceIds : list string }.
(** Generated getter: safe on a nil receiver. *)
Definition GetInstanceIds (x : option t) : list string :=
  match x with Some r => InstanceIds r | None => [] end.
End GetHeartbeatsRequest.

Module GetHeartbeatsResponse.
Record t : Type := mk { Records : list (option HeartbeatRecord.t) }.
(** Generated getter: safe on a nil receiver. *)
Definition GetRecords (x : option t) : list (option HeartbeatRecord.t) :=
  match x with Some r => Records r | None => [] end.
End GetHeartbeatsResponse.

Module DelHeartbeatsRequest.
Record t : Type := mk { InstanceIds : list string }.
Definition GetInstanceIds (x : option t) : list string :=
  match x with Some r => InstanceIds r | None => [] end.
End DelHeartbeatsRequest.

Module DelHeartbeatsResponse.
Record t : Type := mk { }.
End DelHeartbeatsResponse.

End Apiservice.

(** ** package utils: the sharded map behind the local beat cache *)
Module Utils.

(** Go's zero value of a type. *)
Class GoZero (V : Type) : Type := zero : V.

(** Modelled from the spec: utils.SegmentMap, declared in common/utils, whose
    source is missing here. A fixed number of shards, each a mapping of its
    own; a key lives in shard [hash(key) mod N]. *)
Record SegmentMap (V : Type) : Type := mkSegmentMap {
  shardCount : nat;
  hashFn : string -> Z;
  shards : list (gmap string V)
}.
Arguments mkSegmentMap {V} _ _ _.
Arguments shardCount {V} _.
Arguments hashFn {V} _.
Arguments shards {V} _.

(** Modelled from the spec: NewSegmentMap(shard_count, hash_fn), all shards
    empty. *)
Definition NewSegmentMap {V : Type} (n : nat) (h : string -> Z) : SegmentMap V :=
  mkSegmentMap n h (replicate n ∅).

(** Modelled from the spec: the shard a key routes to, [hash(key) mod N]. *)
Definition shardOf {V : Type} (m : SegmentMap V) (k : string) : nat :=
  Z.to_nat (hashFn m k mod Z.of_nat (shardCount m)).

(** Modelled from the spec: SegmentMap.Get returns the zero value and
    [false] on a miss. *)
Definition SegmentMap_Get {V : Type} `{GoZero V} (m : SegmentMap V) (k : string)
  : V * bool :=
  match shards m !! shardOf m k with
  | Some shard =>
      match shard !! k with
      | Some v => (v, true)
      | None => (zero, false)
      end
  | None => (zero, false)
  end.

(** Modelled from the spec: SegmentMap.Put inserts or overwrites. *)
Definition SegmentMap_Put {V : Type} (m : SegmentMap V) (k : string) (v : V)
  : SegmentMap V :=
  mkSegmentMap (shardCount m) (hashFn m)
               (alter (fun shard => <[k := v]> shard) (shardOf m k) (shards m)).

(** Modelled from the spec: SegmentMap.Del reports whether the key existed. *)
Definition SegmentMap_Del {V : Type} `{GoZero V} (m : SegmentMap V) (k : string)
  : SegmentMap V * bool :=
  (mkSegmentMap (shardCount m) (hashFn m)
                (alter (fun shard => delete k shard) (shardOf m k) (shards m)),
   snd (SegmentMap_Get m k)).

End Utils.

(** ** package leader: beat_cache.go *)
Module Leader.
Import Utils Apiservice.

Record RecordValue : Type := mkRecordValue {
  Server : string;
  CurTimeSec : Z;
  Count : Z
}.

#[export] Instance RecordValue_zero : GoZero RecordValue := mkRecordValue "" 0 0.

Record ReadBeatRecord : Type := mkReadBeatRecord {
  Record_ : RecordValue;
  Exist : bool
}.

Record WriteBeatRecord : Type := mkWriteBeatRecord {
  WRecord : RecordValue;
  Key : string
}.

(** *** LocalBeatRecordCache *)
Module LocalBeatRecordCache.

Record t : Type := mk {
  soltNum : Z;
  hashFunc : string -> Z;
  beatCache : SegmentMap RecordValue
}.

(** The result map holds one freshly allocated [ReadBeatRecord] per key, so
    a map of values stands for the Go map of pointers. *)
Definition Get (lc : t) (keys : list string) : gmap string ReadBeatRecord :=
  foldl (fun ret key =>
           let '(val, ok) := SegmentMap_Get (beatCache lc) key in
           <[key := mkReadBeatRecord val ok]> ret)
        ∅ keys.

Definition Put (lc : t) (records : list WriteBeatRecord) : t :=
  foldl (fun lc record =>
           mk (soltNum lc) (hashFunc lc)
              (SegmentMap_Put (beatCache lc) (Key record) (WRecord record)))
        lc records.

Definition Del (lc : t) (keys : list string) : t :=
  foldl (fun lc key =>
           mk (soltNum lc) (hashFunc lc) (fst (SegmentMap_Del (beatCache lc) key)))
        lc keys.

Definition Clean (lc : t) : t := lc.

End LocalBeatRecordCache.

(** *** RemoteBeatRecordCache

    The three callables act on the state [W] of the owning peer and the
    network; the getter returns a response pointer, which may be nil. *)
Module RemoteBeatRecordCache.

Record t (W : Type) : Type := mk {
  saver : HeartbeatsRequest.t -> W -> W;
  delter : DelHeartbeatsRequest.t -> W -> W;
  getter : GetHeartbeatsRequest.t -> W -> W * option GetHeartbeatsResponse.t
}.
Arguments mk {W} _ _ _.
Arguments saver {W} _ _ _.
Arguments delter {W} _ _ _.
Arguments getter {W} _ _ _.

(** The first loop of Get: one fresh [{Exist: false}] per key. *)
Definition Get_init (keys : list string) : gmap string ReadBeatRecord :=
  foldl (fun ret key => <[key := mkReadBeatRecord zero false]> ret) ∅ keys.

(** The second loop of Get. [record.InstanceId] reads through the element
    pointer; [ret[record.InstanceId]] yields a nil [val] on a miss, and the
    miss branch assigns through it. *)
Fixpoint Get_fill (records : list (option HeartbeatRecord.t))
    (ret : gmap string ReadBeatRecord) : outcome (gmap string ReadBeatRecord) :=
  match records with
  | [] => Returned ret
  | None :: _ => Panicked nil_dereference
  | Some record :: rest =>
      match ret !! HeartbeatRecord.InstanceId record with
      | None => Panicked nil_dereference
      | Some val =>
          let val := mkReadBeatRecord (Record_ val) (HeartbeatRecord.Exist record) in
          let val := mkReadBeatRecord
                       (mkRecordValue "" (HeartbeatRecord.LastHeartbeatSec record) 0)
                       (Exist val) in
          Get_fill rest (<[HeartbeatRecord.InstanceId record := val]> ret)
      end
  end.

Definition Get {W : Type} (rc : t W) (keys : list string) (w : W)
  : W * outcome (gmap string ReadBeatRecord) :=
  let ret := Get_init keys in
  let '(w, resp) := getter rc (GetHeartbeatsRequest.mk keys) w in
  let records := GetHeartbeatsResponse.GetRecords resp in
  (w, Get_fill records ret).

(** The request Put hands to the saver. *)
Definition Put_request (records : list WriteBeatRecord) : HeartbeatsRequest.t :=
  HeartbeatsRequest.mk
    (foldl (fun heartbeats record =>
              heartbeats ++ [Some (InstanceHeartbeat.mk (Key record) "" "" "" 0)])
           [] records).

Definition Put {W : Type} (rc : t W) (records : list WriteBeatRecord) (w : W) : W :=
  let req := Put_request records in
  saver rc req w.

Definition Del {W : Type} (rc : t W) (key : list string) (w : W) : W :=
  let req := DelHeartbeatsRequest.mk key in
  delter rc req w.

Definition Clean {W : Type} (rc : t W) (w : W) : W := w.

Definition Snapshot {W : Type} (rc : t W) : gmap string ReadBeatRecord := ∅.

End RemoteBeatRecordCache.

End Leader.

(** ** package v1 (discover gRPC server): heartbeat_access.go *)
Module Discover.
Import Plugin Apiservice.

(** [Checkers] is what [g.healthCheckServer.Checkers()] returns: the
    registered checkers by health-check type. The map holds references, so
    whatever a call does to a checker is written back under its key. *)
Record DiscoverServer (C : Type) : Type := mkDiscoverServer {
  Checkers : gmap Z C
}.
Arguments mkDiscoverServer {C} _.
Arguments Checkers {C} _.

Section Access.
Context {C : Type} `{HealthChecker C}.

(** The loop of BatchGetHeartbeat over [keys], [records] being the slice
    appended to so far. *)
Fixpoint BatchGetHeartbeat_loop (checker : C) (keys : list string)
    (records : list (option HeartbeatRecord.t))
  : C * result (list (option HeartbeatRecord.t)) :=
  match keys with
  | [] => (checker, Ok records)
  | key :: keys =>
      let '(checker, r) := Query checker (QueryRequest.mk key "" 0 false) in
      match r with
      | Err err => (checker, Err err)
      | Ok resp =>
          let record := HeartbeatRecord.mk key
                          (QueryResponse.LastHeartbeatSec resp)
                          (QueryResponse.Exists resp) in
          BatchGetHeartbeat_loop checker keys (records ++ [Some record])
      end
  end.

Definition BatchGetHeartbeat (g : DiscoverServer C)
    (req : option GetHeartbeatsRequest.t)
  : DiscoverServer C * result GetHeartbeatsResponse.t :=
  match Checkers g !! HealthCheck_HEARTBEAT with
  | None => (g, Ok (GetHeartbeatsResponse.mk []))
  | Some checker =>
      let keys := GetHeartbeatsRequest.GetInstanceIds req in
      let '(checker, r) := BatchGetHeartbeat_loop checker keys [] in
      let g := mkDiscoverServer (<[HealthCheck_HEARTBEAT := checker]> (Checkers g)) in
      match r with
      | Err err => (g, Err err)
      | Ok records => (g, Ok (GetHeartbeatsResponse.mk records))
      end
  end.

Fixpoint BatchDelHeartbeat_loop (checker : C) (keys : list string)
  : C * option string :=
  match keys with
  | [] => (checker, None)
  | key :: keys =>
      let '(checker, err) := Delete checker key in
      match err with
      | Some err => (checker, Some err)
      | None => BatchDelHeartbeat_loop checker keys
      end
  end.

Definition BatchDelHeartbeat (g : DiscoverServer C)
    (req : option DelHeartbeatsRequest.t)
  : DiscoverServer C * result DelHeartbeatsResponse.t :=
  match Checkers g !! HealthCheck_HEARTBEAT with
  | None => (g, Ok DelHeartbeatsResponse.mk)
  | Some checker =>
      let keys := DelHeartbeatsRequest.GetInstanceIds req in
      let '(checker, err) := BatchDelHeartbeat_loop checker keys in
      let g := mkDiscoverServer (<[HealthCheck_HEARTBEAT := checker]> (Checkers g)) in
      match err with
      | Some err => (g, Err err)
      | None => (g, Ok DelHeartbeatsResponse.mk)
      end
  end.

End Access.

End Discover.

(** ** package job: job.go *)
Module Job.

(** Modelled from the spec: store.ElectionKeyMaintainJobPrefix, declared in
    the store package, whose source is missing here; election keys have the
    form [MAINTAIN_JOB/<job_name>]. *)
Definition ElectionKeyMaintainJobPrefix : string := "MAINTAIN_JOB/".

(** The part of store.Store the runner consults. *)
Record Store : Type := mkStore {
  IsLeader : string -> bool
}.

(** The maintainJob interface over the job's own state [J]. *)
Class maintainJob (J : Type) : Type := {
  execute : J -> J;
  clear : J -> J;
  interval : J -> Z
}.

(** What one tick does, in order: log lines and calls into the job. *)
Inductive event : Type :=
| LogInfof (msg : string)
| CallClear
| CallExecute.

#[export] Instance event_eq_dec : EqDecision event.
Proof. solve_decision. Defined.

(** The cases the goroutine's [select] can take; a tick comes with the
    store as it stands at that moment. *)
Inductive selected : Type :=
| CtxDone
| TickerC (storage : Store).

Section Runner.
Context {J : Type} `{maintainJob J}.

(** The closure [f] of runAdminJob. *)
Definition runAdminJob_f (name : string) (storage : Store) (job : J)
  : list event * J :=
  if negb (IsLeader storage (ElectionKeyMaintainJobPrefix +:+ name)) then
    ([LogInfof ("[Maintain][Job][" +:+ name +:+ "] I am follower"); CallClear],
     clear job)
  else
    ([LogInfof ("[Maintain][Job][" +:+ name +:+ "] I am leader, job start");
      CallExecute;
      LogInfof ("[Maintain][Job][" +:+ name +:+ "] I am leader, job end")],
     execute job).

(** The goroutine of runAdminJob, run over the cases its [select] takes. *)
Fixpoint runAdminJob_loop (name : string) (cases : list selected) (job : J)
  : list event * J :=
  match cases with
  | [] => ([], job)
  | CtxDone :: _ => ([], job)
  | TickerC storage :: cases =>
      let '(evs, job) := runAdminJob_f name storage job in
      let '(evs', job) := runAdminJob_loop name cases job in
      (evs ++ evs', job)
  end.

End Runner.

End Job.

(** ** Vocabulary of the specification and its scenarios *)
Module Scenario.
Import Plugin HeartbeatMemory.

(** The last heartbeat time the evaluator sees for an instance: the stored
    record's time, 0 when there is no record. *)
Definition lastHeartbeat (r : MemoryHealthChecker) (id : string) : Z :=
  match hbRecords r !! id with
  | Some record => CurTimeSec record
  | None => 0
  end.

(** The health of an instance after the scheduler has applied a response:
    unchanged when the response says so, the reported bit otherwise. *)
Definition resultingHealth (prior : bool) (resp : CheckResponse.t) : bool :=
  if CheckResponse.StayUnchanged resp then prior else CheckResponse.Healthy resp.

(** The evaluator's outcome "return healthy=false": the instance is reported
    unhealthy as a change, as opposed to "return stay_unchanged=true". *)
Definition returnsUnhealthy (resp : CheckResponse.t) : Prop :=
  CheckResponse.Healthy resp = false /\ CheckResponse.StayUnchanged resp = false.

Definition withHealthy (h : bool) (req : CheckRequest.t) : CheckRequest.t :=
  let q := CheckRequest.Query req in
  CheckRequest.mk
    (QueryRequest.mk (QueryRequest.InstanceId q) (QueryRequest.Host q)
                     (QueryRequest.Port q) h)
    (CheckRequest.ExpireDurationSec req) (CheckRequest.CurTimeSec req).

Definition fresh : MemoryHealthChecker :=
  Initialize (mkMemoryHealthChecker ∅ 0).

Definition checkRequest (id : string) (healthy : bool) (expire cur : Z)
  : CheckRequest.t :=
  CheckRequest.mk (QueryRequest.mk id "" 0 healthy) expire cur.

(** S2: report [(id="i", last=100, count=1)]. *)
Definition S2_checker : MemoryHealthChecker :=
  fst (Report fresh (ReportRequest.mk (QueryRequest.mk "i" "" 0 true) "" 100 1)).

Definition S2_request : CheckRequest.t := checkRequest "i" true 50 200.

(** S5: [Suspend()] at t=1000 s, evaluation at t=1020 s. *)
Definition S5_checker : MemoryHealthChecker := Suspend fresh 1000000.

Definition S5_now : Z := 1020000.

Definition S5_request : CheckRequest.t := checkRequest "i" true 60 1020.

End Scenario.

(** ** Vocabulary and scenarios for the beat caches *)
Module CacheScenario.
Import Utils Apiservice Leader.

(** The record stored for a key, if any: the key's entry in its shard. *)
Definition stored {V : Type} (m : SegmentMap V) (k : string) : option V :=
  shards m !! shardOf m k ≫= (fun shard => shard !! k).

(** A response element the remote Get can absorb: a non-nil record whose
    instance id was asked for. *)
Definition requested (keys : list string) (o : option HeartbeatRecord.t) : Prop :=
  match o with
  | Some record => HeartbeatRecord.InstanceId record ∈ keys
  | None => False
  end.

Definition unrequested (keys : list string) (o : option HeartbeatRecord.t) : Prop :=
  match o with
  | Some record => HeartbeatRecord.InstanceId record ∉ keys
  | None => True
  end.

(** The heartbeat entry Put sends for a key: only the instance id is set. *)
Definition heartbeatOf (key : string) : option InstanceHeartbeat.t :=
  Some (InstanceHeartbeat.mk key "" "" "" 0).

(** A remote cache whose saver and deleter log the requests they are given
    and whose getter answers from a fixed response. *)
Definition recording (resp : option GetHeartbeatsResponse.t)
  : RemoteBeatRecordCache.t (list HeartbeatsRequest.t) :=
  RemoteBeatRecordCache.mk
    (fun req log => log ++ [req])
    (fun _ log => log)
    (fun _ log => (log, resp)).

(** S1: a local cache of four shards holding one record, for instance "a". *)
Definition S1_cache : LocalBeatRecordCache.t :=
  LocalBeatRecordCache.Put
    (LocalBeatRecordCache.mk 4 (fun k => Z.of_nat (String.length k))
       (NewSegmentMap 4 (fun k => Z.of_nat (String.length k))))
    [mkWriteBeatRecord (mkRecordValue "srv" 100 1) "a"].

(** A peer answering a request for "a" with a record of "b". *)
Definition stray_response : option GetHeartbeatsResponse.t :=
  Some (GetHeartbeatsResponse.mk [Some (HeartbeatRecord.mk "b" 7 true)]).

End CacheScenario.

(** ** Scenarios for the heartbeat RPCs and the job runner *)
Module ServerScenario.
Import Plugin Apiservice Discover Job.

(** A checker that logs the instance ids it is asked about and fails on the
    instance id "bad". *)
Record Flaky : Type := mkFlaky { asked : list string }.

#[export] Instance Flaky_HealthChecker : HealthChecker Flaky := {|
  Plugin.Query c request :=
    let id := QueryRequest.InstanceId request in
    (mkFlaky (asked c ++ [id]),
     if String.eqb id "bad" then Err "query failed"
     else Ok (QueryResponse.mk "srv" 5 1 true));
  Plugin.Delete c id :=
    (mkFlaky (asked c ++ [id]),
     if String.eqb id "bad" then Some "delete failed" else None)
|}.

Definition flaky_server : DiscoverServer Flaky :=
  mkDiscoverServer {[HealthCheck_HEARTBEAT := mkFlaky []]}.

(** A server whose heartbeat checker is the memory checker of S2, which
    holds a record for instance "i". *)
Definition S2_server : DiscoverServer HeartbeatMemory.MemoryHealthChecker :=
  mkDiscoverServer {[HealthCheck_HEARTBEAT := Scenario.S2_checker]}.

(** A job that counts its executions and its clears. *)
Record Counting : Type := mkCounting { executed : nat; cleared : nat }.

#[export] Instance Counting_maintainJob : maintainJob Counting := {|
  execute j := mkCounting (S (executed j)) (cleared j);
  clear j := mkCounting (executed j) (S (cleared j));
  interval _ := 60
|}.

Definition leaderOf (key : string) : Store := mkStore (String.eqb key).

Definition follower : Store := mkStore (fun _ => false).

End ServerScenario.

(** ** package leader, continued: snapshots and what a remote read holds *)
Module LeaderSnapshot.
Import Utils Apiservice Leader.

(** Modelled from the spec: SegmentMap.Range visits every entry of every
    shard, in no defined order; the entries it hands to the visitor. *)
Definition SegmentMap_Range {V : Type} (m : SegmentMap V) : list (string * V) :=
  mjoin (map_to_list <$> shards m).

(** LocalBeatRecordCache.Snapshot: the visitor stores [{Record: v}], leaving
    Exist at its zero value. *)
Definition LocalBeatRecordCache_Snapshot (lc : LocalBeatRecordCache.t)
  : gmap string ReadBeatRecord :=
  foldl (fun ret kv => <[fst kv := mkReadBeatRecord (snd kv) false]> ret)
        ∅ (SegmentMap_Range (LocalBeatRecordCache.beatCache lc)).

(** The last record of a response that carries a given instance id. *)
Fixpoint lastRecordFor (id : string) (records : list (option HeartbeatRecord.t))
  : option HeartbeatRecord.t :=
  match records with
  | [] => None
  | o :: records =>
      match lastRecordFor id records with
      | Some record => Some record
      | None =>
          match o with
          | Some record =>
              if decide (HeartbeatRecord.InstanceId record = id)
              then Some record else None
          | None => None
          end
      end
  end.

(** What the remote Get stores for a response record. *)
Definition readOf (record : HeartbeatRecord.t) : ReadBeatRecord :=
  mkReadBeatRecord (mkRecordValue "" (HeartbeatRecord.LastHeartbeatSec record) 0)
                   (HeartbeatRecord.Exist record).

End LeaderSnapshot.

(** ** package job, continued: starting and stopping the maintenance jobs *)
Module Maintain.
Import Job.

(** JobConfig: the fields StartMaintianJobs reads; [O] is the type of the
    option map handed to [init]. *)
Module JobConfig.
Record t (O : Type) : Type := mk {
  Name : string;
  Enable : bool;
  Option : O
}.
Arguments mk {O} _ _ _.
Arguments Name {O} _.
Arguments Enable {O} _.
Arguments Option {O} _.
End JobConfig.

(** [init(cfg) error] of the maintainJob interface: it may update the job. *)
Class initJob (J O : Type) : Type :=
  init : J -> O -> J * option string.

(** [StartLeaderElection(key) error] of store.Store, over the store's state. *)
Class electionStore (S : Type) : Type :=
  StartLeaderElection : S -> string -> S * option string.

(** What StartMaintianJobs does besides updating its receiver: log lines and
    the goroutine [runAdminJob] launches for a job under a context. *)
Inductive effect : Type :=
| Infof (msg : string)
| Errorf (msg : string)
| Go (ctx : nat) (name : string) (interval : Z).

(** [jobs] holds the job objects by name; [startedJobs] maps a name to the
    same object, so it is kept as the set of its names. [cancel] is the
    cancel function of a context, named by the context's number. *)
Record MaintainJobs (J S : Type) : Type := mkMaintainJobs {
  jobs : gmap string J;
  startedJobs : gset string;
  storage : S;
  cancel : option nat
}.
Arguments mkMaintainJobs {J S} _ _ _ _.
Arguments jobs {J S} _.
Arguments startedJobs {J S} _.
Arguments storage {J S} _.
Arguments cancel {J S} _.

(** NewMaintainJobs: the four jobs of the catalog, none started. The job
    objects themselves are built by their own constructors. *)
Definition NewMaintainJobs {J S : Type}
    (deleteUnHealthyInstance deleteEmptyAutoCreatedService
     cleanDeletedInstances cleanDeletedClients : J) (storage : S)
  : MaintainJobs J S :=
  mkMaintainJobs
    (<["DeleteUnHealthyInstance" := deleteUnHealthyInstance]>
       (<["DeleteEmptyAutoCreatedService" := deleteEmptyAutoCreatedService]>
          (<["CleanDeletedInstances" := cleanDeletedInstances]>
             (<["CleanDeletedClients" := cleanDeletedClients]> ∅))))
    ∅ storage None.

Section Start.
Context {J S O : Type} `{maintainJob J} `{initJob J O} `{electionStore S}.

(** The loop of StartMaintianJobs over the configs. *)
Fixpoint StartMaintianJobs_loop (ctx : nat) (configs : list (JobConfig.t O))
    (mj : MaintainJobs J S) : MaintainJobs J S * list effect * option string :=
  match configs with
  | [] => (mj, [], None)
  | cfg :: configs =>
      let name := JobConfig.Name cfg in
      if negb (JobConfig.Enable cfg) then
        let '(mj, effects, err) := StartMaintianJobs_loop ctx configs mj in
        (mj, Infof ("[Maintain][Job] job (" +:+ name +:+ ") not enable") :: effects, err)
      else
        match jobs mj !! name with
        | None =>
            (mj, [], Some ("[Maintain][Job] job (" +:+ name +:+ ") not exist"))
        | Some job =>
            if decide (name ∈ startedJobs mj) then
              (mj, [], Some ("[Maintain][Job] job (" +:+ name +:+ ") duplicated"))
            else
              let '(job, err) := init job (JobConfig.Option cfg) in
              let mj := mkMaintainJobs (<[name := job]> (jobs mj)) (startedJobs mj)
                                       (storage mj) (cancel mj) in
              match err with
              | Some err =>
                  (mj,
                   [Errorf ("[Maintain][Job] job (" +:+ name
                            +:+ ") fail to init, err: " +:+ err)],
                   Some ("[Maintain][Job] job (" +:+ name +:+ ") fail to init"))
              | None =>
                  let '(storage', err) :=
                    StartLeaderElection (storage mj)
                                        (ElectionKeyMaintainJobPrefix +:+ name) in
                  let mj := mkMaintainJobs (jobs mj) (startedJobs mj) storage'
                                           (cancel mj) in
                  match err with
                  | Some err =>
                      (mj,
                       [Errorf ("[Maintain][Job][" +:+ name
                                +:+ "] start leader election err: " +:+ err)],
                       Some err)
                  | None =>
                      let go := Go ctx name (interval job) in
                      let mj := mkMaintainJobs (jobs mj) ({[name]} ∪ startedJobs mj)
                                               (storage mj) (cancel mj) in
                      let '(mj, effects, err) := StartMaintianJobs_loop ctx configs mj in
                      (mj, go :: effects, err)
                  end
              end
        end
  end.

(** StartMaintianJobs; [ctx] is the context [context.WithCancel] creates. *)
Definition StartMaintianJobs (ctx : nat) (mj : MaintainJobs J S)
    (configs : list (JobConfig.t O))
  : MaintainJobs J S * list effect * option string :=
  let mj := mkMaintainJobs (jobs mj) (startedJobs mj) (storage mj) (Some ctx) in
  StartMaintianJobs_loop ctx configs mj.

(** StopMaintainJobs; the second component is the context whose cancel
    function was called, if there was one. *)
Definition StopMaintainJobs (mj : MaintainJobs J S)
  : MaintainJobs J S * option nat :=
  (mkMaintainJobs (jobs mj) ∅ (storage mj) (cancel mj), cancel mj).

End Start.

(** The names of the goroutines launched, in launch order. *)
Definition launched (effects : list effect) : list string :=
  omap (fun e => match e with Go _ name _ => Some name | _ => None end) effects.

(** The contexts the launched goroutines run under. *)
Definition launchedUnder (effects : list effect) : list nat :=
  omap (fun e => match e with Go ctx _ _ => Some ctx | _ => None end) effects.

(** The names of the enabled configs, in order. *)
Definition enabledNames {O : Type} (configs : list (JobConfig.t O)) : list string :=
  map JobConfig.Name (List.filter JobConfig.Enable configs).

(** The stores seen by the ticks a goroutine runs before its context is done. *)
Fixpoint ticksUntilDone (cases : list selected) : list Store :=
  match cases with
  | [] => []
  | CtxDone :: _ => []
  | TickerC storage :: cases => storage :: ticksUntilDone cases
  end.

End Maintain.

(** ** Scenario: a store that records campaigns and a job whose init may fail *)
Module MaintainScenario.
Import Job Maintain ServerScenario.

(** Options of the counting job: whether init is to fail. *)
#[export] Instance Counting_initJob : initJob Counting bool :=
  fun j fail => (j, if fail then Some "bad option" else None).

(** A store that lists the campaigns started on it. *)
#[export] Instance campaigns_electionStore : electionStore (list string) :=
  fun campaigns key => (campaigns ++ [key], None).

Definition catalog : MaintainJobs Counting (list string) :=
  NewMaintainJobs (mkCounting 0 0) (mkCounting 0 0) (mkCounting 0 0)
                  (mkCounting 0 0) [].

Definition two_configs : list (JobConfig.t bool) :=
  [JobConfig.mk "CleanDeletedClients" true false;
   JobConfig.mk "DeleteUnHealthyInstance" false false;
   JobConfig.mk "CleanDeletedInstances" true false].

End MaintainScenario.

(** ** package job, continued: the master account token and the job context *)
Module JobContext.

(** The field of the store's User that the jobs read. *)
Record User : Type := mkUser { Token : string }.

(** [GetUserByName(name, ownerId)] of store.Store returns a user pointer,
    which may be nil, and an error. *)
Class userStore (S : Type) : Type :=
  GetUserByName : S -> string -> string -> option User * option string.

(** A context.Context as the chain of values attached to it, innermost
    first; [Value] finds the innermost value of a key. *)
Definition Context (K : Type) : Type := list (K * string).

Definition Background {K : Type} : Context K := [].

Definition WithValue {K : Type} (ctx : Context K) (key : K) (val : string)
  : Context K :=
  (key, val) :: ctx.

Fixpoint Value {K : Type} `{EqDecision K} (ctx : Context K) (key : K)
  : option string :=
  match ctx with
  | [] => None
  | (k, v) :: ctx => if decide (k = key) then Some v else Value ctx key
  end.

Section Token.
Context {S K : Type} `{userStore S} `{EqDecision K}.
(** utils.ContextAuthTokenKey and utils.ContextOperator. *)
Variables (ContextAuthTokenKey ContextOperator : K).

(** [getenv] is os.Getenv: the empty string for an unset variable. *)
Definition getMasterAccountToken (getenv : string -> string) (storage : S)
  : outcome (string * option string) :=
  let mainUser := getenv "POLARIS_MAIN_USER" in
  let mainUser := if decide (mainUser = "") then "polaris" else mainUser in
  let '(user, err) := GetUserByName storage mainUser "" in
  match err with
  | Some err => Returned ("", Some err)
  | None =>
      match user with
      | Some user => Returned (Token user, None)
      | None => Panicked nil_dereference
      end
  end.

Definition buildContext (getenv : string -> string) (storage : S)
  : outcome (result (Context K)) :=
  match getMasterAccountToken getenv storage with
  | Panicked msg => Panicked msg
  | Returned (token, Some err) => Returned (Err err)
  | Returned (token, None) =>
      let ctx := Background in
      let ctx := WithValue ctx ContextAuthTokenKey token in
      let ctx := WithValue ctx ContextOperator "maintain-job" in
      Returned (Ok ctx)
  end.

End Token.

(** A store of users by name. *)
#[export] Instance users_userStore : userStore (gmap string User) :=
  fun users name _ => (users !! name, None).

End JobContext.

(** * Properties *)

(** ** int64 arithmetic *)
Section Int64Facts.
Import Int64.

Lemma wrap_in_range z : in_range z -> wrap z = z.
Proof.
  unfold in_range, min_int, max_int, wrap. intros Hz.
  rewrite Z.mod_small by lia. lia.
Qed.

Lemma wrap_range z : in_range (wrap z).
Proof.
  unfold in_range, min_int, max_int, wrap.
  pose proof (Z.mod_pos_bound (z + 2 ^ 63) (2 ^ 64)). lia.
Qed.

Lemma sub_exact a b : in_range (a - b) -> sub a b = a - b.
Proof. apply wrap_in_range. Qed.

Lemma div_range a b : in_range (div a b).
Proof. apply wrap_range. Qed.

(** Seconds from milliseconds: the division is exact on every int64. *)
Lemma div_1000_exact a : in_range a -> div a 1000 = Z.quot a 1000.
Proof.
  intros Ha. apply wrap_in_range. revert Ha.
  unfold in_range, min_int, max_int. intros Ha.
  pose proof (Z.quot_rem' a 1000) as Hqr.
  assert (Hr : (0 <= a -> 0 <= Z.rem a 1000 < 1000)
               /\ (a < 0 -> - 1000 < Z.rem a 1000 <= 0)).
  { split; intros ?.
    - apply Z.rem_bound_pos; lia.
    - change (-1000) with (- (1000)). apply Z.rem_bound_pos_neg; lia. }
  change (- 2 ^ 63) with (-9223372036854775808) in *.
  change (2 ^ 63 - 1) with 9223372036854775807 in *.
  generalize dependent (Z.rem a 1000). generalize dependent (Z.quot a 1000).
  intros q r Hqr Hr. lia.
Qed.

(** The difference of a later and an earlier positive time never wraps. *)
Lemma sub_later a b : in_range a -> 0 < b -> b <= a -> sub a b = a - b.
Proof.
  unfold in_range, min_int, max_int. intros Ha Hb Hba.
  apply sub_exact. unfold in_range, min_int, max_int. lia.
Qed.

End Int64Facts.

(** ** The heartbeat health evaluator *)
Section HealthEvaluator.
Import Plugin HeartbeatMemory Scenario.

Lemma Query_ok r request :
  Query r request =
    Ok (QueryResponse.mk
          (from_option Server "" (hbRecords r !! QueryRequest.InstanceId request))
          (lastHeartbeat r (QueryRequest.InstanceId request))
          (from_option Count 0 (hbRecords r !! QueryRequest.InstanceId request))
          false).
Proof.
  unfold Query, lastHeartbeat.
  destruct (hbRecords r !! QueryRequest.InstanceId request); reflexivity.
Qed.

(** [skipCheck] as a proposition over the code's int64 difference. *)
Lemma skipCheck_true r nowMilli id E :
  skipCheck r nowMilli id E = true <->
  0 < suspendTimeSec r
  /\ suspendTimeSec r <= Int64.div nowMilli 1000
  /\ Int64.sub (Int64.div nowMilli 1000) (suspendTimeSec r) < E.
Proof.
  unfold skipCheck, SuspendTimeSec.
  destruct (Z.ltb_spec 0 (suspendTimeSec r));
    destruct (Z.leb_spec (suspendTimeSec r) (Int64.div nowMilli 1000));
    destruct (Z.ltb_spec (Int64.sub (Int64.div nowMilli 1000) (suspendTimeSec r)) E);
    simpl; split; try discriminate; intros; try reflexivity; lia.
Qed.

(** The response of [Check] once suspension is ruled out. *)
Lemma Check_not_suspended r nowMilli req :
  skipCheck r nowMilli (CheckRequest.InstanceId req)
            (CheckRequest.ExpireDurationSec req) = false ->
  let L := lastHeartbeat r (CheckRequest.InstanceId req) in
  let expired := (L <? CheckRequest.CurTimeSec req)
                 && (CheckRequest.ExpireDurationSec req
                     <=? Int64.sub (CheckRequest.CurTimeSec req) L) in
  Check r nowMilli req =
    Ok (CheckResponse.mk (negb expired) L
          (Bool.eqb (CheckRequest.Healthy req) (negb expired))).
Proof.
  intros Hskip. cbv zeta. unfold Check. rewrite Query_ok.
  unfold CheckRequest.InstanceId in *.
  cbn -[skipCheck Int64.sub lastHeartbeat]. rewrite Hskip.
  destruct (_ && _); destruct (CheckRequest.Healthy req); reflexivity.
Qed.

Lemma Check_suspended r nowMilli req :
  skipCheck r nowMilli (CheckRequest.InstanceId req)
            (CheckRequest.ExpireDurationSec req) = true ->
  Check r nowMilli req =
    Ok (CheckResponse.mk false (lastHeartbeat r (CheckRequest.InstanceId req)) true).
Proof.
  intros Hskip. unfold Check. rewrite Query_ok.
  unfold CheckRequest.InstanceId in *.
  cbn -[skipCheck lastHeartbeat]. rewrite Hskip. reflexivity.
Qed.

(** C3. [skipCheck] answers true exactly when the recorded suspend time is
    strictly positive, the wall-clock second [now] is not before it, and
    [now - suspend_time] is below the expire duration; [Suspend] stores the
    wall-clock second ([CurrentMillisecond() / 1000]) in one store and leaves
    the heartbeat records alone. *)
Theorem skipCheck_iff_Suspend_records r nowMilli id E suspendMilli :
  let now := Int64.div nowMilli 1000 in
  (skipCheck r nowMilli id E = true <->
     0 < SuspendTimeSec r /\ now >= SuspendTimeSec r /\ now - SuspendTimeSec r < E)
  /\ SuspendTimeSec (Suspend r suspendMilli) = Int64.div suspendMilli 1000
  /\ hbRecords (Suspend r suspendMilli) = hbRecords r
  /\ (Int64.in_range nowMilli -> now = Z.quot nowMilli 1000).
Proof.
  intros now. split; [| split; [reflexivity | split; [reflexivity |]]].
  - rewrite skipCheck_true. unfold SuspendTimeSec. fold now.
    pose proof (div_range nowMilli 1000) as Hnow. fold now in Hnow.
    split.
    + intros (Hs & Hle & Hlt). rewrite sub_later in Hlt by (assumption || lia). lia.
    + intros (Hs & Hle & Hlt). rewrite sub_later by (assumption || lia). lia.
  - apply div_1000_exact.
Qed.

Lemma skipCheck_iff_Suspend_records_S5 :
  skipCheck S5_checker S5_now "i" 60 = true
  /\ SuspendTimeSec (Suspend S5_checker 1000000) = 1000.
Proof.
  destruct (skipCheck_iff_Suspend_records S5_checker S5_now "i" 60 1000000)
    as (Hiff & Hs & _ & _).
  split.
  - apply Hiff. vm_compute. repeat split; discriminate.
  - rewrite Hs. reflexivity.
Defined.

(** C1. With prior health true and the checker not suspended, [Check]
    answers healthy=false, and as a change ([stay_unchanged=false]), exactly
    when [C > L] and [C - L >= E], where [L] is the stored heartbeat time (0
    without a record), [C] the request's current time, [E] the expire
    duration and [C - L] the int64 difference the code computes, which is the
    integer difference whenever that fits in an int64. *)
Theorem Check_expiry_transition r nowMilli req :
  let L := lastHeartbeat r (CheckRequest.InstanceId req) in
  let C := CheckRequest.CurTimeSec req in
  let E := CheckRequest.ExpireDurationSec req in
  CheckRequest.Healthy req = true ->
  skipCheck r nowMilli (CheckRequest.InstanceId req) E = false ->
  exists resp,
    Check r nowMilli req = Ok resp
    /\ CheckResponse.LastHeartbeatTimeSec resp = L
    /\ (CheckResponse.Healthy resp = false <-> C > L /\ Int64.sub C L >= E)
    /\ (CheckResponse.StayUnchanged resp = false <-> C > L /\ Int64.sub C L >= E)
    /\ (Int64.in_range (C - L) ->
        (CheckResponse.Healthy resp = false <-> C > L /\ C - L >= E)).
Proof.
  intros L C E Hh Hskip.
  rewrite (Check_not_suspended _ _ _ Hskip), Hh. fold L C E.
  eexists. split; [reflexivity |]. cbn [CheckResponse.LastHeartbeatTimeSec
    CheckResponse.Healthy CheckResponse.StayUnchanged].
  assert (Hexp : forall d, (L <? C) && (E <=? d) = true <-> C > L /\ d >= E).
  { intros d. rewrite andb_true_iff, Z.ltb_lt, Z.leb_le. lia. }
  split; [reflexivity |].
  split; [| split].
  - rewrite <- Hexp. destruct (_ && _); simpl; split; congruence.
  - rewrite <- Hexp. destruct (_ && _); simpl; split; congruence.
  - intros Hr. rewrite <- (sub_exact C L Hr), <- Hexp.
    destruct (_ && _); simpl; split; congruence.
Qed.

Lemma Check_expiry_transition_S2 :
  exists resp,
    Check S2_checker 0 S2_request = Ok resp
    /\ CheckResponse.Healthy resp = false
    /\ CheckResponse.LastHeartbeatTimeSec resp = 100
    /\ CheckResponse.StayUnchanged resp = false.
Proof.
  destruct (Check_expiry_transition S2_checker 0 S2_request eq_refl eq_refl)
    as (resp & Hc & HL & HH & HS & _).
  exists resp. split; [exact Hc |].
  split; [apply HH; vm_compute; split; [reflexivity | discriminate] |].
  split; [rewrite HL; reflexivity |].
  apply HS; vm_compute; split; [reflexivity | discriminate].
Defined.

(** C2. While the wall-clock second lies in
    [[suspend_time, suspend_time + expire)] after a [Suspend] with
    [suspend_time > 0], [Check] never returns healthy=false (the instance
    reported unhealthy as a change): it returns stay_unchanged=true, with
    the last heartbeat time filled in. *)
Theorem Check_in_suspend_window r nowMilli req :
  let now := Int64.div nowMilli 1000 in
  let E := CheckRequest.ExpireDurationSec req in
  0 < SuspendTimeSec r ->
  SuspendTimeSec r <= now < SuspendTimeSec r + E ->
  exists resp,
    Check r nowMilli req = Ok resp
    /\ ~ returnsUnhealthy resp
    /\ CheckResponse.StayUnchanged resp = true
    /\ CheckResponse.LastHeartbeatTimeSec resp
       = lastHeartbeat r (CheckRequest.InstanceId req).
Proof.
  intros now E Hs Hwin.
  assert (Hskip : skipCheck r nowMilli (CheckRequest.InstanceId req) E = true).
  { apply skipCheck_true. unfold SuspendTimeSec in *. fold now.
    pose proof (div_range nowMilli 1000) as Hnow. fold now in Hnow.
    rewrite sub_later by (assumption || lia). lia. }
  rewrite (Check_suspended _ _ _ Hskip). eexists. split; [reflexivity |].
  split; [| split; reflexivity].
  intros [_ Hunchanged]. discriminate Hunchanged.
Qed.

Lemma Check_in_suspend_window_S5 :
  exists resp,
    Check S5_checker S5_now S5_request = Ok resp
    /\ ~ returnsUnhealthy resp
    /\ CheckResponse.StayUnchanged resp = true.
Proof.
  destruct (Check_in_suspend_window S5_checker S5_now S5_request)
    as (resp & Hcheck & Hnot & Hstay & _).
  - reflexivity.
  - vm_compute. split; [discriminate | reflexivity].
  - exists resp. split; [exact Hcheck |]. split; [exact Hnot | exact Hstay].
Defined.

(** C7. Running [Check] a second time at the same request time and the same
    wall-clock time, on the same records and suspend time, with the prior
    health replaced by the health the first response leaves the instance
    with (or by the first response's healthy field), answers
    stay_unchanged=true. *)
Theorem Check_idempotent r nowMilli req :
  exists resp1,
    Check r nowMilli req = Ok resp1
    /\ forall h2,
        h2 = resultingHealth (CheckRequest.Healthy req) resp1
        \/ h2 = CheckResponse.Healthy resp1 ->
        exists resp2,
          Check r nowMilli (withHealthy h2 req) = Ok resp2
          /\ CheckResponse.StayUnchanged resp2 = true.
Proof.
  destruct (skipCheck r nowMilli (CheckRequest.InstanceId req)
              (CheckRequest.ExpireDurationSec req)) eqn:Hskip.
  - eexists. split; [apply Check_suspended; exact Hskip |].
    intros h2 _. eexists. split.
    + apply (Check_suspended r nowMilli (withHealthy h2 req)). exact Hskip.
    + reflexivity.
  - eexists. split; [apply Check_not_suspended; exact Hskip |].
    intros h2 Hh2.
    rewrite (Check_not_suspended r nowMilli (withHealthy h2 req) Hskip).
    eexists. split; [reflexivity |].
    unfold resultingHealth, CheckRequest.InstanceId in *.
    cbn -[Int64.sub lastHeartbeat] in *.
    destruct (_ && _); destruct (CheckRequest.Healthy req);
      destruct Hh2 as [-> | ->]; reflexivity.
Qed.

Lemma Check_idempotent_S2 :
  exists resp2,
    Check S2_checker 0 (withHealthy false S2_request) = Ok resp2
    /\ CheckResponse.StayUnchanged resp2 = true.
Proof.
  destruct (Check_idempotent S2_checker 0 S2_request) as (resp1 & H1 & H2).
  apply H2. right.
  vm_compute in H1. injection H1 as <-. reflexivity.
Defined.

End HealthEvaluator.

(** ** The beat caches *)
Section BeatCaches.
Import Utils Apiservice Leader CacheScenario.

Lemma foldl_pointwise {A B : Type} (f g : A -> B -> A) (l : list B) (a : A) :
  (forall a b, f a b = g a b) -> foldl f a l = foldl g a l.
Proof.
  intros Hfg. revert a. induction l as [| b l IH]; intros a; cbn [foldl].
  - reflexivity.
  - rewrite Hfg. apply IH.
Qed.

(** A loop that assigns [ret[key] = f key] for each key in turn. *)
Lemma foldl_insert_lookup {A : Type} (f : string -> A) (keys : list string)
    (ret : gmap string A) (k : string) :
  foldl (fun ret key => <[key := f key]> ret) ret keys !! k =
    if decide (k ∈ keys) then Some (f k) else ret !! k.
Proof.
  revert ret. induction keys as [| key keys IH]; intros ret; cbn [foldl].
  - rewrite decide_False by apply not_elem_of_nil. reflexivity.
  - rewrite IH. destruct (decide (k ∈ keys)) as [Hin | Hnin].
    + rewrite decide_True by (right; exact Hin). reflexivity.
    + destruct (decide (k = key)) as [-> | Hne].
      * rewrite decide_True by left. apply lookup_insert_eq.
      * rewrite decide_False by (rewrite elem_of_cons; tauto).
        apply lookup_insert_ne. congruence.
Qed.

Lemma SegmentMap_Get_stored (m : SegmentMap RecordValue) (k : string) :
  SegmentMap_Get m k =
    match stored m k with
    | Some v => (v, true)
    | None => (zero, false)
    end.
Proof.
  unfold SegmentMap_Get, stored.
  destruct (shards m !! shardOf m k) as [shard |]; simpl; [| reflexivity].
  destruct (shard !! k); reflexivity.
Qed.

Lemma LocalGet_lookup lc keys k :
  LocalBeatRecordCache.Get lc keys !! k =
    if decide (k ∈ keys)
    then Some (match stored (LocalBeatRecordCache.beatCache lc) k with
               | Some v => mkReadBeatRecord v true
               | None => mkReadBeatRecord zero false
               end)
    else None.
Proof.
  unfold LocalBeatRecordCache.Get.
  rewrite (foldl_pointwise _
             (fun ret key =>
                <[key := match stored (LocalBeatRecordCache.beatCache lc) key with
                         | Some v => mkReadBeatRecord v true
                         | None => mkReadBeatRecord zero false
                         end]> ret)).
  - rewrite foldl_insert_lookup. destruct (decide (k ∈ keys)); [reflexivity |].
    apply lookup_empty.
  - intros ret key. rewrite SegmentMap_Get_stored.
    destruct (stored _ key); reflexivity.
Qed.

(** C6. [LocalBeatRecordCache.Get] is a total function (it has no failing
    path) whose result has an entry for every requested key and for no
    other: a key with a stored record maps to that record with exist=true,
    a key without one to the zero record with exist=false. *)
Theorem LocalGet_entry_for_every_key lc keys :
  (forall k, k ∈ keys -> is_Some (LocalBeatRecordCache.Get lc keys !! k))
  /\ (forall k, k ∈ keys ->
        stored (LocalBeatRecordCache.beatCache lc) k = None ->
        LocalBeatRecordCache.Get lc keys !! k
          = Some (mkReadBeatRecord (mkRecordValue "" 0 0) false))
  /\ (forall k v, k ∈ keys ->
        stored (LocalBeatRecordCache.beatCache lc) k = Some v ->
        LocalBeatRecordCache.Get lc keys !! k = Some (mkReadBeatRecord v true))
  /\ (forall k, k ∉ keys -> LocalBeatRecordCache.Get lc keys !! k = None).
Proof.
  repeat split; intros k.
  - intros Hin. rewrite LocalGet_lookup, decide_True by exact Hin. eauto.
  - intros Hin Hs. rewrite LocalGet_lookup, decide_True, Hs by exact Hin. reflexivity.
  - intros v Hin Hs. rewrite LocalGet_lookup, decide_True, Hs by exact Hin. reflexivity.
  - intros Hnin. rewrite LocalGet_lookup, decide_False by exact Hnin. reflexivity.
Qed.

Lemma LocalGet_entry_for_every_key_S1 :
  LocalBeatRecordCache.Get S1_cache ["nope"; "a"] !! "nope"
    = Some (mkReadBeatRecord (mkRecordValue "" 0 0) false)
  /\ LocalBeatRecordCache.Get S1_cache ["nope"; "a"] !! "a"
    = Some (mkReadBeatRecord (mkRecordValue "srv" 100 1) true).
Proof.
  destruct (LocalGet_entry_for_every_key S1_cache ["nope"; "a"])
    as (_ & Hmiss & Hhit & _).
  split.
  - apply Hmiss; [left | vm_compute; reflexivity].
  - apply Hhit; [right; left | vm_compute; reflexivity].
Defined.

Lemma Get_init_lookup keys k :
  RemoteBeatRecordCache.Get_init keys !! k =
    if decide (k ∈ keys) then Some (mkReadBeatRecord zero false) else None.
Proof.
  unfold RemoteBeatRecordCache.Get_init.
  rewrite (foldl_insert_lookup (fun _ => mkReadBeatRecord zero false)).
  destruct (decide (k ∈ keys)); [reflexivity | apply lookup_empty].
Qed.

(** Where every element is a non-nil record of a key of [ret], the second
    loop runs to its end and keeps the keys of [ret]. *)
Lemma Get_fill_requested keys records :
  Forall (requested keys) records ->
  forall ret : gmap string ReadBeatRecord,
    (forall k, k ∈ keys <-> is_Some (ret !! k)) ->
    exists ret',
      RemoteBeatRecordCache.Get_fill records ret = Returned ret'
      /\ (forall k, k ∈ keys <-> is_Some (ret' !! k)).
Proof.
  induction 1 as [| o records Ho _ IH]; intros ret Hdom; cbn [RemoteBeatRecordCache.Get_fill].
  - eauto.
  - destruct o as [record |]; [| destruct Ho]. cbn [requested] in Ho.
    destruct (proj1 (Hdom _) Ho) as [val Hval]. rewrite Hval.
    apply IH. intros k. rewrite Hdom.
    destruct (decide (k = HeartbeatRecord.InstanceId record)) as [-> | Hne].
    + rewrite lookup_insert_eq, Hval. split; eauto.
    + rewrite lookup_insert_ne by congruence. reflexivity.
Qed.

(** A nil element, or a record of a key [ret] does not hold, stops the
    second loop on a nil dereference. *)
Lemma Get_fill_unrequested keys records :
  Exists (unrequested keys) records ->
  forall ret : gmap string ReadBeatRecord,
    (forall k, k ∈ keys <-> is_Some (ret !! k)) ->
    RemoteBeatRecordCache.Get_fill records ret = Panicked nil_dereference.
Proof.
  induction 1 as [o records Ho | o records _ IH]; intros ret Hdom;
    cbn [RemoteBeatRecordCache.Get_fill].
  - destruct o as [record |]; [| reflexivity]. cbn [unrequested] in Ho.
    destruct (ret !! HeartbeatRecord.InstanceId record) as [val |] eqn:Hval;
      [| reflexivity].
    exfalso. apply Ho, Hdom. eauto.
  - destruct o as [record |]; [| reflexivity].
    destruct (ret !! HeartbeatRecord.InstanceId record) as [val |] eqn:Hval;
      [| reflexivity].
    apply IH. intros k. rewrite Hdom.
    destruct (decide (k = HeartbeatRecord.InstanceId record)) as [-> | Hne].
    + rewrite lookup_insert_eq, Hval. split; eauto.
    + rewrite lookup_insert_ne by congruence. reflexivity.
Qed.

Lemma Get_init_keys keys k :
  k ∈ keys <-> is_Some (RemoteBeatRecordCache.Get_init keys !! k).
Proof.
  rewrite Get_init_lookup. destruct (decide (k ∈ keys)) as [Hin | Hnin].
  - split; eauto.
  - split; [tauto |]. intros [? ?]. discriminate.
Qed.

Lemma requested_or_unrequested keys records :
  Forall (requested keys) records \/ Exists (unrequested keys) records.
Proof.
  induction records as [| o records [IH | IH]].
  - left. constructor.
  - destruct o as [record |].
    + destruct (decide (HeartbeatRecord.InstanceId record ∈ keys)) as [Hin | Hnin].
      * left. constructor; assumption.
      * right. apply Exists_cons_hd. exact Hnin.
    + right. apply Exists_cons_hd. exact I.
  - right. apply Exists_cons_tl. exact IH.
Qed.

(** C8. [RemoteBeatRecordCache.Get] returns, with an entry for every
    requested key, when every element of the getter's response is a record
    whose InstanceId is among the requested keys; when the response holds a
    record whose InstanceId was not requested (or a nil element), the call
    stops on a nil pointer dereference instead of returning. *)
Theorem RemoteGet_total_iff_requested {W : Type}
    (rc : RemoteBeatRecordCache.t W) (keys : list string) (w : W) :
  let answer := RemoteBeatRecordCache.getter rc (GetHeartbeatsRequest.mk keys) w in
  let records := GetHeartbeatsResponse.GetRecords (snd answer) in
  (Forall (requested keys) records ->
     exists ret,
       RemoteBeatRecordCache.Get rc keys w = (fst answer, Returned ret)
       /\ (forall k, k ∈ keys <-> is_Some (ret !! k)))
  /\ (Exists (unrequested keys) records ->
       RemoteBeatRecordCache.Get rc keys w = (fst answer, Panicked nil_dereference))
  /\ (Forall (requested keys) records \/ Exists (unrequested keys) records).
Proof.
  intros answer records. unfold RemoteBeatRecordCache.Get.
  fold answer. destruct answer as [w' resp] eqn:Hanswer.
  cbn [fst snd] in *. fold records.
  split; [| split; [| apply requested_or_unrequested]].
  - intros Hall.
    destruct (Get_fill_requested keys records Hall _ (Get_init_keys keys))
      as (ret & -> & Hdom).
    eauto.
  - intros Hex.
    rewrite (Get_fill_unrequested keys records Hex _ (Get_init_keys keys)).
    reflexivity.
Qed.

Lemma RemoteGet_stray_record_panics :
  RemoteBeatRecordCache.Get (recording stray_response) ["a"] []
    = ([], Panicked nil_dereference).
Proof.
  apply (RemoteGet_total_iff_requested (recording stray_response) ["a"] []).
  apply Exists_cons_hd. cbn. intros Hin.
  apply list_elem_of_singleton in Hin. discriminate.
Defined.

(** A loop that appends one element per item builds the mapped list. *)
Lemma foldl_append_map {A B : Type} (f : B -> A) (l : list B) (acc : list A) :
  foldl (fun acc b => acc ++ [f b]) acc l = acc ++ map f l.
Proof.
  revert acc. induction l as [| b l IH]; intros acc; cbn [foldl map].
  - symmetry. apply app_nil_r.
  - rewrite IH, <- app_assoc. reflexivity.
Qed.

Lemma Put_request_heartbeats records :
  HeartbeatsRequest.Heartbeats (RemoteBeatRecordCache.Put_request records)
    = map (fun record => heartbeatOf (Key record)) records.
Proof.
  unfold RemoteBeatRecordCache.Put_request. cbn [HeartbeatsRequest.Heartbeats].
  apply (foldl_append_map (fun record => heartbeatOf (Key record)) records []).
Qed.

(** C10. [RemoteBeatRecordCache.Put] calls the saver once, with one request
    holding, in order, one heartbeat entry per record whose only assigned
    field is InstanceId = the record's Key; the request is the same for any
    records with the same keys, whatever their Server, CurTimeSec and
    Count. *)
Theorem RemotePut_request_keys_only {W : Type}
    (rc : RemoteBeatRecordCache.t W) (records : list WriteBeatRecord) (w : W) :
  RemoteBeatRecordCache.Put rc records w
    = RemoteBeatRecordCache.saver rc
        (HeartbeatsRequest.mk (map (fun record => heartbeatOf (Key record)) records)) w
  /\ length (HeartbeatsRequest.Heartbeats (RemoteBeatRecordCache.Put_request records))
     = length records
  /\ (forall log resp,
        RemoteBeatRecordCache.Put (recording resp) records log
          = log ++ [RemoteBeatRecordCache.Put_request records])
  /\ (forall records',
        map Key records' = map Key records ->
        RemoteBeatRecordCache.Put rc records' w
          = RemoteBeatRecordCache.Put rc records w).
Proof.
  assert (Hreq : forall rs,
             RemoteBeatRecordCache.Put_request rs
               = HeartbeatsRequest.mk (map (fun record => heartbeatOf (Key record)) rs)).
  { intros rs. pose proof (Put_request_heartbeats rs) as Hhb.
    destruct (RemoteBeatRecordCache.Put_request rs). cbn in Hhb. congruence. }
  split; [| split; [| split]].
  - unfold RemoteBeatRecordCache.Put. rewrite Hreq. reflexivity.
  - rewrite Put_request_heartbeats. apply length_map.
  - reflexivity.
  - intros records' Hkeys. unfold RemoteBeatRecordCache.Put. rewrite !Hreq.
    rewrite <- !(map_map Key heartbeatOf), Hkeys. reflexivity.
Qed.

Lemma RemotePut_request_keys_only_example :
  RemoteBeatRecordCache.Put (recording None)
      [mkWriteBeatRecord (mkRecordValue "srv" 100 1) "a";
       mkWriteBeatRecord (mkRecordValue "other" 7 9) "b"] []
    = [HeartbeatsRequest.mk [heartbeatOf "a"; heartbeatOf "b"]]
  /\ RemoteBeatRecordCache.Put (recording None)
      [mkWriteBeatRecord (mkRecordValue "" 0 0) "a";
       mkWriteBeatRecord (mkRecordValue "" 0 0) "b"] []
    = RemoteBeatRecordCache.Put (recording None)
      [mkWriteBeatRecord (mkRecordValue "srv" 100 1) "a";
       mkWriteBeatRecord (mkRecordValue "other" 7 9) "b"] [].
Proof.
  destruct (RemotePut_request_keys_only (recording None)
              [mkWriteBeatRecord (mkRecordValue "srv" 100 1) "a";
               mkWriteBeatRecord (mkRecordValue "other" 7 9) "b"] [])
    as (Hput & _ & _ & Hsame).
  split.
  - rewrite Hput. reflexivity.
  - apply Hsame. reflexivity.
Defined.

End BeatCaches.

(** ** The heartbeat RPCs *)
Section HeartbeatAccess.
Import Plugin Apiservice Discover.
Context {C : Type} `{HealthChecker C}.

Lemma BatchGetHeartbeat_loop_app (checker : C) pre post records :
  BatchGetHeartbeat_loop checker (pre ++ post) records =
    match BatchGetHeartbeat_loop checker pre records with
    | (checker, Ok records) => BatchGetHeartbeat_loop checker post records
    | (checker, Err err) => (checker, Err err)
    end.
Proof.
  revert checker records.
  induction pre as [| key pre IH]; intros checker records; cbn [app BatchGetHeartbeat_loop].
  - reflexivity.
  - destruct (Query checker _) as [checker' [resp | err]]; [apply IH | reflexivity].
Qed.

Lemma BatchDelHeartbeat_loop_app (checker : C) pre post :
  BatchDelHeartbeat_loop checker (pre ++ post) =
    match BatchDelHeartbeat_loop checker pre with
    | (checker, None) => BatchDelHeartbeat_loop checker post
    | (checker, Some err) => (checker, Some err)
    end.
Proof.
  revert checker.
  induction pre as [| key pre IH]; intros checker; cbn [app BatchDelHeartbeat_loop].
  - reflexivity.
  - destruct (Delete checker key) as [checker' [err |]]; [reflexivity | apply IH].
Qed.

(** A loop that ends without error has appended one non-nil record per key,
    in the order of the keys. *)
Lemma BatchGetHeartbeat_loop_ok (checker : C) keys records checker' records' :
  BatchGetHeartbeat_loop checker keys records = (checker', Ok records') ->
  exists new,
    records' = records ++ new
    /\ map (fmap HeartbeatRecord.InstanceId) new = map Some keys.
Proof.
  revert checker records.
  induction keys as [| key keys IH]; intros checker records;
    cbn [BatchGetHeartbeat_loop].
  - intros [= _ <-]. exists []. split; [symmetry; apply app_nil_r | reflexivity].
  - destruct (Query checker _) as [checker1 [resp | err]]; [| discriminate].
    intros Hloop. destruct (IH _ _ Hloop) as (new & -> & Hnew).
    eexists (_ :: new). split; [rewrite <- app_assoc; reflexivity |].
    cbn [map fmap option_fmap option_map HeartbeatRecord.InstanceId].
    rewrite Hnew. reflexivity.
Qed.

(** C5. Without a registered heartbeat checker both RPCs answer an empty
    response and no error. With one: the first Query (Delete) that returns
    an error ends the batch with that error, later keys being left alone;
    and a BatchGetHeartbeat that succeeds holds one record per requested
    instance id, in request order. *)
Theorem BatchHeartbeat_policy (g : DiscoverServer C) :
  (Checkers g !! HealthCheck_HEARTBEAT = None ->
     forall req req',
       BatchGetHeartbeat g req = (g, Ok (GetHeartbeatsResponse.mk []))
       /\ BatchDelHeartbeat g req' = (g, Ok DelHeartbeatsResponse.mk))
  /\ (forall checker pre key post c1 records c2 err,
        Checkers g !! HealthCheck_HEARTBEAT = Some checker ->
        BatchGetHeartbeat_loop checker pre [] = (c1, Ok records) ->
        Query c1 (QueryRequest.mk key "" 0 false) = (c2, Err err) ->
        BatchGetHeartbeat g (Some (GetHeartbeatsRequest.mk (pre ++ key :: post)))
          = (mkDiscoverServer (<[HealthCheck_HEARTBEAT := c2]> (Checkers g)), Err err))
  /\ (forall checker pre key post c1 c2 err,
        Checkers g !! HealthCheck_HEARTBEAT = Some checker ->
        BatchDelHeartbeat_loop checker pre = (c1, None) ->
        Delete c1 key = (c2, Some err) ->
        BatchDelHeartbeat g (Some (DelHeartbeatsRequest.mk (pre ++ key :: post)))
          = (mkDiscoverServer (<[HealthCheck_HEARTBEAT := c2]> (Checkers g)), Err err))
  /\ (forall req g' resp,
        is_Some (Checkers g !! HealthCheck_HEARTBEAT) ->
        BatchGetHeartbeat g req = (g', Ok resp) ->
        map (fmap HeartbeatRecord.InstanceId) (GetHeartbeatsResponse.Records resp)
          = map Some (GetHeartbeatsRequest.GetInstanceIds req)).
Proof.
  split; [| split; [| split]].
  - intros Hnone req req'. unfold BatchGetHeartbeat, BatchDelHeartbeat.
    rewrite Hnone. split; reflexivity.
  - intros checker pre key post c1 records c2 err Hsome Hpre Hq.
    unfold BatchGetHeartbeat. rewrite Hsome.
    cbn [GetHeartbeatsRequest.GetInstanceIds GetHeartbeatsRequest.InstanceIds].
    rewrite BatchGetHeartbeat_loop_app, Hpre. cbn [BatchGetHeartbeat_loop].
    rewrite Hq. reflexivity.
  - intros checker pre key post c1 c2 err Hsome Hpre Hd.
    unfold BatchDelHeartbeat. rewrite Hsome.
    cbn [DelHeartbeatsRequest.GetInstanceIds DelHeartbeatsRequest.InstanceIds].
    rewrite BatchDelHeartbeat_loop_app, Hpre. cbn [BatchDelHeartbeat_loop].
    rewrite Hd. reflexivity.
  - intros req g' resp [checker Hsome]. unfold BatchGetHeartbeat. rewrite Hsome.
    destruct (BatchGetHeartbeat_loop checker _ []) as [c' [records | err]] eqn:Hloop;
      [| discriminate].
    intros [= _ <-]. cbn [GetHeartbeatsResponse.Records].
    destruct (BatchGetHeartbeat_loop_ok _ _ _ _ _ Hloop) as (new & -> & Hnew).
    exact Hnew.
Qed.

End HeartbeatAccess.

Section HeartbeatAccessScenarios.
Import Plugin Apiservice Discover ServerScenario.

Lemma BatchHeartbeat_policy_flaky :
  BatchGetHeartbeat flaky_server (Some (GetHeartbeatsRequest.mk ["a"; "bad"; "c"]))
    = (mkDiscoverServer {[HealthCheck_HEARTBEAT := mkFlaky ["a"; "bad"]]},
       Err "query failed")
  /\ BatchDelHeartbeat flaky_server (Some (DelHeartbeatsRequest.mk ["a"; "bad"; "c"]))
    = (mkDiscoverServer {[HealthCheck_HEARTBEAT := mkFlaky ["a"; "bad"]]},
       Err "delete failed")
  /\ BatchGetHeartbeat (mkDiscoverServer (∅ : gmap Z Flaky))
       (Some (GetHeartbeatsRequest.mk ["a"]))
    = (mkDiscoverServer ∅, Ok (GetHeartbeatsResponse.mk [])).
Proof.
  destruct (BatchHeartbeat_policy flaky_server) as (_ & Hget & Hdel & _).
  destruct (BatchHeartbeat_policy (mkDiscoverServer (∅ : gmap Z Flaky)))
    as (Hnone & _).
  split; [| split].
  - etransitivity.
    + exact (Hget (mkFlaky []) ["a"] "bad" ["c"] (mkFlaky ["a"])
               [Some (HeartbeatRecord.mk "a" 5 true)] (mkFlaky ["a"; "bad"])
               "query failed" eq_refl eq_refl eq_refl).
    + vm_compute. reflexivity.
  - etransitivity.
    + exact (Hdel (mkFlaky []) ["a"] "bad" ["c"] (mkFlaky ["a"])
               (mkFlaky ["a"; "bad"]) "delete failed" eq_refl eq_refl eq_refl).
    + vm_compute. reflexivity.
  - apply (Hnone eq_refl (Some (GetHeartbeatsRequest.mk ["a"])) None).
Defined.

End HeartbeatAccessScenarios.

(** ** The memory checker behind the heartbeat RPCs *)
Section MemoryCheckerAccess.
Import Plugin Apiservice Discover HeartbeatMemory Scenario ServerScenario.

(** Over the memory checker the loop never fails, leaves the checker as it
    is, and appends for each key its last heartbeat time with Exist unset. *)
Lemma BatchGetHeartbeat_loop_memory (r : MemoryHealthChecker) keys records :
  BatchGetHeartbeat_loop r keys records =
    (r, Ok (records
            ++ map (fun key => Some (HeartbeatRecord.mk key (lastHeartbeat r key) false))
                   keys)).
Proof.
  revert records.
  induction keys as [| key keys IH]; intros records; cbn [BatchGetHeartbeat_loop map].
  - rewrite app_nil_r. reflexivity.
  - cbn [Plugin.Query MemoryHealthChecker_HealthChecker].
    rewrite Query_ok. cbn [QueryResponse.LastHeartbeatSec QueryResponse.Exists
                           QueryRequest.InstanceId].
    rewrite IH, <- app_assoc. reflexivity.
Qed.

(** C9. [MemoryHealthChecker.Query] always returns a response and a nil
    error, and the response's Exists is false whether or not a record is
    stored for the instance; so with the memory checker registered as the
    heartbeat checker, BatchGetHeartbeat succeeds and every record it
    returns has Exist=false. *)
Theorem Query_never_sets_Exists (r : MemoryHealthChecker) :
  (forall request,
     exists resp,
       Query r request = Ok resp
       /\ QueryResponse.Exists resp = false
       /\ QueryResponse.LastHeartbeatSec resp
          = lastHeartbeat r (QueryRequest.InstanceId request))
  /\ (forall (g : DiscoverServer MemoryHealthChecker) req,
        Checkers g !! HealthCheck_HEARTBEAT = Some r ->
        exists resp,
          BatchGetHeartbeat g req = (g, Ok resp)
          /\ Forall (fun o => exists record,
                        o = Some record /\ HeartbeatRecord.Exist record = false)
                    (GetHeartbeatsResponse.Records resp)).
Proof.
  split.
  - intros request. rewrite Query_ok. eexists. repeat split.
  - intros g req Hsome. unfold BatchGetHeartbeat. rewrite Hsome.
    rewrite BatchGetHeartbeat_loop_memory. rewrite (insert_id _ _ _ Hsome).
    destruct g as [checkers]. eexists. split; [reflexivity |].
    cbn [GetHeartbeatsResponse.Records app]. apply Forall_map, Forall_forall.
    intros key _. eauto.
Qed.

Lemma Query_never_sets_Exists_S2 :
  hbRecords S2_checker !! "i" = Some (mkHeartbeatRecord "" 100 1)
  /\ BatchGetHeartbeat S2_server (Some (GetHeartbeatsRequest.mk ["i"; "j"]))
     = (S2_server,
        Ok (GetHeartbeatsResponse.mk
              [Some (HeartbeatRecord.mk "i" 100 false);
               Some (HeartbeatRecord.mk "j" 0 false)])).
Proof.
  split; [vm_compute; reflexivity |].
  destruct (Query_never_sets_Exists S2_checker) as (_ & Hbatch).
  destruct (Hbatch S2_server (Some (GetHeartbeatsRequest.mk ["i"; "j"])) eq_refl)
    as (resp & Hget & _).
  rewrite Hget. vm_compute in Hget. injection Hget as <-. reflexivity.
Defined.

End MemoryCheckerAccess.

(** ** The maintenance job runner *)
Section JobRunner.
Import Job ServerScenario.
Context {J : Type} `{maintainJob J}.

(** C4. A tick of a job's ticker runs the closure [f] (until the context is
    done). On a tick where [IsLeader] on the job's election key is false,
    [f] calls [job.clear()] and not [job.execute()]; where it is true, [f]
    calls [job.execute()] and not [job.clear()]. *)
Theorem runAdminJob_tick_leader_gate (name : string) (storage : Store) (job : J) :
  let key := ElectionKeyMaintainJobPrefix +:+ name in
  let tick := runAdminJob_f name storage job in
  (IsLeader storage key = false ->
     (CallClear ∈ fst tick) /\ (CallExecute ∉ fst tick) /\ snd tick = clear job)
  /\ (IsLeader storage key = true ->
       (CallExecute ∈ fst tick) /\ (CallClear ∉ fst tick) /\ snd tick = execute job)
  /\ (forall cases,
        runAdminJob_loop name (TickerC storage :: cases) job
          = (fst tick ++ fst (runAdminJob_loop name cases (snd tick)),
             snd (runAdminJob_loop name cases (snd tick))))
  /\ (forall cases, runAdminJob_loop name (CtxDone :: cases) job = ([], job)).
Proof.
  intros key tick. subst tick. unfold runAdminJob_f. fold key.
  split; [| split; [| split]].
  - intros ->. cbn [negb fst snd]. repeat split.
    + right. left.
    + intros Hin. repeat (apply elem_of_cons in Hin as [Hin | Hin]; [discriminate |]).
      inversion Hin.
  - intros ->. cbn [negb fst snd]. repeat split.
    + right. left.
    + intros Hin. repeat (apply elem_of_cons in Hin as [Hin | Hin]; [discriminate |]).
      inversion Hin.
  - intros cases. cbn [runAdminJob_loop]. unfold runAdminJob_f. fold key.
    destruct (negb (IsLeader storage key)); cbn [fst snd];
      destruct (runAdminJob_loop name cases _); reflexivity.
  - reflexivity.
Qed.

End JobRunner.

Section JobRunnerScenarios.
Import Job ServerScenario.

Lemma runAdminJob_tick_leader_gate_counting :
  snd (runAdminJob_f "CleanDeletedClients" follower (mkCounting 0 0))
    = mkCounting 0 1
  /\ snd (runAdminJob_f "CleanDeletedClients"
            (leaderOf "MAINTAIN_JOB/CleanDeletedClients") (mkCounting 0 0))
    = mkCounting 1 0.
Proof.
  destruct (runAdminJob_tick_leader_gate "CleanDeletedClients" follower
              (mkCounting 0 0)) as (Hfollower & _).
  destruct (runAdminJob_tick_leader_gate "CleanDeletedClients"
              (leaderOf "MAINTAIN_JOB/CleanDeletedClients") (mkCounting 0 0))
    as (_ & Hleader & _).
  split.
  - apply Hfollower. reflexivity.
  - apply Hleader. reflexivity.
Defined.

End JobRunnerScenarios.

(** * Further properties of the code *)

#[local] Set Warnings "-clear-no-such-hyp".

(** ** The memory checker: reports, deletions and checks *)
Section MemoryCheckerStore.
Import Plugin HeartbeatMemory Scenario.

(** X1. A reported heartbeat is what the next Query of that instance returns
    (server, time and count; Exists stays false); other instances and the
    suspend time are left as they were, and Report returns no error. *)
Theorem Report_then_Query (r : MemoryHealthChecker) (rep : ReportRequest.t) :
  let r' := fst (Report r rep) in
  snd (Report r rep) = None
  /\ (forall q,
        QueryRequest.InstanceId q = ReportRequest.InstanceId rep ->
        Query r' q = Ok (QueryResponse.mk (ReportRequest.LocalHost rep)
                           (ReportRequest.CurTimeSec rep)
                           (ReportRequest.Count rep) false))
  /\ (forall q,
        QueryRequest.InstanceId q <> ReportRequest.InstanceId rep ->
        Query r' q = Query r q)
  /\ SuspendTimeSec r' = SuspendTimeSec r.
Proof.
  cbn [Report fst snd]. split; [reflexivity |]. split; [| split; [| reflexivity]].
  - intros q Hq. unfold Query. cbn [hbRecords]. rewrite Hq, lookup_insert_eq.
    reflexivity.
  - intros q Hq. unfold Query. cbn [hbRecords].
    rewrite lookup_insert_ne by congruence. reflexivity.
Qed.

Lemma Report_then_Query_example :
  Query S2_checker (QueryRequest.mk "i" "10.0.0.1" 80 false)
    = Ok (QueryResponse.mk "" 100 1 false).
Proof.
  apply (Report_then_Query fresh
           (ReportRequest.mk (QueryRequest.mk "i" "" 0 true) "" 100 1)).
  reflexivity.
Defined.

(** X2. After Delete the instance reads as never reported (time 0, empty server,
    count 0), whatever was stored; other instances are left alone; deleting
    an instance without a record changes nothing, so Delete is idempotent;
    Delete returns no error. *)
Theorem Delete_then_Query (r : MemoryHealthChecker) (id : string) :
  let r' := fst (Delete r id) in
  snd (Delete r id) = None
  /\ (forall q, QueryRequest.InstanceId q = id ->
        Query r' q = Ok (QueryResponse.mk "" 0 0 false))
  /\ (forall q, QueryRequest.InstanceId q <> id -> Query r' q = Query r q)
  /\ (hbRecords r !! id = None -> r' = r)
  /\ fst (Delete r' id) = r'.
Proof.
  cbn [Delete fst snd]. split; [reflexivity |]. split; [| split; [| split]].
  - intros q Hq. unfold Query. cbn [hbRecords]. rewrite Hq, lookup_delete_eq.
    reflexivity.
  - intros q Hq. unfold Query. cbn [hbRecords].
    rewrite lookup_delete_ne by congruence. reflexivity.
  - intros Hnone. destruct r as [records s]. cbn [hbRecords suspendTimeSec] in *.
    rewrite delete_id by exact Hnone. reflexivity.
  - cbn [hbRecords suspendTimeSec]. rewrite delete_id by apply lookup_delete_eq.
    reflexivity.
Qed.

Lemma Delete_then_Query_example :
  Query (fst (Delete S2_checker "i")) (QueryRequest.mk "i" "" 0 true)
    = Ok (QueryResponse.mk "" 0 0 false)
  /\ fst (Delete fresh "i") = fresh.
Proof.
  destruct (Delete_then_Query S2_checker "i") as (_ & Hgone & _).
  destruct (Delete_then_Query fresh "i") as (_ & _ & _ & Hid & _).
  split; [apply Hgone; reflexivity | apply Hid; reflexivity].
Defined.

End MemoryCheckerStore.

(** ** The health evaluator: changes, resumption, freshness *)
Section HealthEvaluatorMore.
Import Plugin HeartbeatMemory Scenario.

(** Whether the heartbeat has expired at request time [C], as [Check]
    decides it. *)
Lemma Check_healthy_field r nowMilli req :
  skipCheck r nowMilli (CheckRequest.InstanceId req)
            (CheckRequest.ExpireDurationSec req) = false ->
  exists resp,
    Check r nowMilli req = Ok resp
    /\ CheckResponse.LastHeartbeatTimeSec resp
       = lastHeartbeat r (CheckRequest.InstanceId req)
    /\ CheckResponse.StayUnchanged resp
       = Bool.eqb (CheckRequest.Healthy req) (CheckResponse.Healthy resp)
    /\ (CheckResponse.Healthy resp = false <->
        CheckRequest.CurTimeSec req > lastHeartbeat r (CheckRequest.InstanceId req)
        /\ Int64.sub (CheckRequest.CurTimeSec req)
                     (lastHeartbeat r (CheckRequest.InstanceId req))
           >= CheckRequest.ExpireDurationSec req).
Proof.
  intros Hskip. rewrite (Check_not_suspended _ _ _ Hskip).
  eexists. split; [reflexivity |].
  cbn [CheckResponse.LastHeartbeatTimeSec CheckResponse.Healthy
       CheckResponse.StayUnchanged].
  split; [reflexivity |]. split; [reflexivity |].
  destruct (Z.ltb_spec (lastHeartbeat r (CheckRequest.InstanceId req))
                       (CheckRequest.CurTimeSec req));
    destruct (Z.leb_spec (CheckRequest.ExpireDurationSec req)
                (Int64.sub (CheckRequest.CurTimeSec req)
                           (lastHeartbeat r (CheckRequest.InstanceId req))));
    cbn [andb negb]; split; intros; try discriminate; try reflexivity; lia.
Qed.

(** X3. [Check] always answers, with the stored heartbeat time, and it reports a
    change (stay_unchanged=false) only together with a health bit that is
    the opposite of the prior one and only outside suspension; outside
    suspension, stay_unchanged=true means the health bit equals the prior
    one. *)
Theorem Check_reports_real_changes r nowMilli req :
  exists resp,
    Check r nowMilli req = Ok resp
    /\ CheckResponse.LastHeartbeatTimeSec resp
       = lastHeartbeat r (CheckRequest.InstanceId req)
    /\ (CheckResponse.StayUnchanged resp = false ->
        CheckResponse.Healthy resp = negb (CheckRequest.Healthy req)
        /\ skipCheck r nowMilli (CheckRequest.InstanceId req)
                     (CheckRequest.ExpireDurationSec req) = false)
    /\ (skipCheck r nowMilli (CheckRequest.InstanceId req)
                  (CheckRequest.ExpireDurationSec req) = false ->
        CheckResponse.StayUnchanged resp = true ->
        CheckResponse.Healthy resp = CheckRequest.Healthy req).
Proof.
  destruct (skipCheck r nowMilli (CheckRequest.InstanceId req)
              (CheckRequest.ExpireDurationSec req)) eqn:Hskip.
  - rewrite (Check_suspended _ _ _ Hskip). eexists. split; [reflexivity |].
    cbn. repeat split; discriminate.
  - destruct (Check_healthy_field _ _ _ Hskip) as (resp & -> & HL & HS & _).
    exists resp. split; [reflexivity |]. split; [exact HL |]. rewrite HS.
    destruct (CheckRequest.Healthy req), (CheckResponse.Healthy resp); cbn;
      repeat split; intros; congruence.
Qed.

Lemma Check_reports_real_changes_S2 :
  exists resp,
    Check S2_checker 0 S2_request = Ok resp
    /\ CheckResponse.Healthy resp = false.
Proof.
  destruct (Check_reports_real_changes S2_checker 0 S2_request)
    as (resp & Hc & _ & Hchange & _).
  exists resp. split; [exact Hc |].
  apply Hchange. vm_compute in Hc. injection Hc as <-. reflexivity.
Defined.

(** X4. Resumption. With prior health false and the checker not suspended,
    [Check] answers healthy=true, as a change, exactly when the heartbeat
    has not expired: not ([C > L] and [C - L >= E]); over in-range
    differences that is [C <= L] or [C - L < E]. *)
Theorem Check_resume_transition r nowMilli req :
  let L := lastHeartbeat r (CheckRequest.InstanceId req) in
  let C := CheckRequest.CurTimeSec req in
  let E := CheckRequest.ExpireDurationSec req in
  CheckRequest.Healthy req = false ->
  skipCheck r nowMilli (CheckRequest.InstanceId req) E = false ->
  exists resp,
    Check r nowMilli req = Ok resp
    /\ (CheckResponse.Healthy resp = true <-> ~ (C > L /\ Int64.sub C L >= E))
    /\ (CheckResponse.StayUnchanged resp = false <-> CheckResponse.Healthy resp = true)
    /\ (Int64.in_range (C - L) ->
        (CheckResponse.Healthy resp = true <-> C <= L \/ C - L < E)).
Proof.
  intros L C E Hh Hskip.
  destruct (Check_healthy_field _ _ _ Hskip) as (resp & -> & _ & HS & HH).
  fold L C E in HH. exists resp. split; [reflexivity |].
  rewrite HS, Hh. split; [| split].
  - rewrite <- HH. destruct (CheckResponse.Healthy resp); split; intros; congruence.
  - destruct (CheckResponse.Healthy resp); cbn; split; intros; congruence.
  - intros Hr. rewrite (sub_exact C L Hr) in HH.
    destruct (CheckResponse.Healthy resp).
    + split; [intros _ | reflexivity].
      assert (~ (C > L /\ C - L >= E)) by (rewrite <- HH; discriminate). lia.
    + split; [discriminate |]. intros Hfresh.
      assert (C > L /\ C - L >= E) by (apply HH; reflexivity). lia.
Qed.

Lemma Check_resume_transition_S4 :
  exists resp,
    Check (fst (Report fresh (ReportRequest.mk (QueryRequest.mk "i" "" 0 false) "" 500 1)))
          0 (checkRequest "i" false 50 510) = Ok resp
    /\ CheckResponse.Healthy resp = true
    /\ CheckResponse.StayUnchanged resp = false.
Proof.
  destruct (Check_resume_transition
              (fst (Report fresh (ReportRequest.mk (QueryRequest.mk "i" "" 0 false) "" 500 1)))
              0 (checkRequest "i" false 50 510) eq_refl eq_refl)
    as (resp & Hc & _ & HS & HH).
  exists resp. split; [exact Hc |].
  assert (Hhealthy : CheckResponse.Healthy resp = true).
  { apply HH; vm_compute; [split; discriminate | right; reflexivity]. }
  split; [exact Hhealthy | apply HS; exact Hhealthy].
Defined.

End HealthEvaluatorMore.

Section HeartbeatFreshness.
Import Plugin HeartbeatMemory Scenario.

Lemma Report_lastHeartbeat r rep id :
  lastHeartbeat (fst (Report r rep)) id =
    if decide (id = ReportRequest.InstanceId rep)
    then ReportRequest.CurTimeSec rep
    else lastHeartbeat r id.
Proof.
  unfold lastHeartbeat. cbn [Report fst hbRecords].
  destruct (decide (id = ReportRequest.InstanceId rep)) as [-> | Hne].
  - rewrite lookup_insert_eq. reflexivity.
  - rewrite lookup_insert_ne by congruence. reflexivity.
Qed.

Lemma Report_skipCheck r rep nowMilli id E :
  skipCheck (fst (Report r rep)) nowMilli id E = skipCheck r nowMilli id E.
Proof. reflexivity. Qed.

(** X5. A heartbeat reported at time [T] keeps its instance healthy at every
    check time [C] with [C - T < E] (the difference fitting an int64): while
    the checker is not suspended, [Check] answers healthy=true with last
    heartbeat [T], as a change exactly when the prior health was false. *)
Theorem Report_keeps_instance_healthy r rep nowMilli req :
  let T := ReportRequest.CurTimeSec rep in
  let C := CheckRequest.CurTimeSec req in
  let E := CheckRequest.ExpireDurationSec req in
  CheckRequest.InstanceId req = ReportRequest.InstanceId rep ->
  skipCheck r nowMilli (CheckRequest.InstanceId req) E = false ->
  Int64.in_range (C - T) ->
  C - T < E ->
  Check (fst (Report r rep)) nowMilli req
    = Ok (CheckResponse.mk true T (CheckRequest.Healthy req)).
Proof.
  intros T C E Hid Hskip Hr Hfresh.
  rewrite <- (Report_skipCheck r rep) in Hskip.
  rewrite (Check_not_suspended _ _ _ Hskip).
  rewrite Report_lastHeartbeat, decide_True by exact Hid. fold T C E.
  rewrite (sub_exact C T Hr).
  replace ((T <? C) && (E <=? C - T)) with false.
  - destruct (CheckRequest.Healthy req); reflexivity.
  - symmetry. apply andb_false_iff. right. apply Z.leb_gt. exact Hfresh.
Qed.

Lemma Report_keeps_instance_healthy_example :
  Check S2_checker 0 (checkRequest "i" false 50 149)
    = Ok (CheckResponse.mk true 100 false).
Proof.
  apply (Report_keeps_instance_healthy fresh
           (ReportRequest.mk (QueryRequest.mk "i" "" 0 true) "" 100 1)
           0 (checkRequest "i" false 50 149)).
  - reflexivity.
  - reflexivity.
  - vm_compute. split; discriminate.
  - reflexivity.
Defined.

(** X6. Expiry is monotone in the check time: on the same records, if [Check]
    answers healthy=false at request time [C] then it answers healthy=false
    at every later request time [C'] (differences to the last heartbeat
    fitting an int64, the checker suspended at neither call). *)
Theorem Check_expiry_monotone r nowMilli nowMilli' req req' resp :
  let L := lastHeartbeat r (CheckRequest.InstanceId req) in
  CheckRequest.InstanceId req' = CheckRequest.InstanceId req ->
  CheckRequest.ExpireDurationSec req' = CheckRequest.ExpireDurationSec req ->
  CheckRequest.CurTimeSec req <= CheckRequest.CurTimeSec req' ->
  Int64.in_range (CheckRequest.CurTimeSec req - L) ->
  Int64.in_range (CheckRequest.CurTimeSec req' - L) ->
  skipCheck r nowMilli (CheckRequest.InstanceId req)
            (CheckRequest.ExpireDurationSec req) = false ->
  skipCheck r nowMilli' (CheckRequest.InstanceId req)
            (CheckRequest.ExpireDurationSec req) = false ->
  Check r nowMilli req = Ok resp ->
  CheckResponse.Healthy resp = false ->
  exists resp',
    Check r nowMilli' req' = Ok resp'
    /\ CheckResponse.Healthy resp' = false.
Proof.
  intros L Hid HE Hle Hr Hr' Hskip Hskip' Hcheck Hunhealthy.
  destruct (Check_healthy_field _ _ _ Hskip) as (resp0 & Hc0 & _ & _ & HH).
  rewrite Hcheck in Hc0. injection Hc0 as <-.
  rewrite <- Hid, <- HE in Hskip'.
  destruct (Check_healthy_field _ _ _ Hskip') as (resp' & Hc' & _ & _ & HH').
  exists resp'. split; [exact Hc' |]. apply HH'.
  rewrite Hid, HE. fold L in HH |- *.
  rewrite (sub_exact _ _ Hr) in HH. rewrite (sub_exact _ _ Hr').
  apply HH in Hunhealthy. lia.
Qed.

Lemma Check_expiry_monotone_S2 :
  exists resp',
    Check S2_checker 0 (checkRequest "i" false 50 1000) = Ok resp'
    /\ CheckResponse.Healthy resp' = false.
Proof.
  apply (Check_expiry_monotone S2_checker 0 0 S2_request
           (checkRequest "i" false 50 1000) (CheckResponse.mk false 100 false)).
  - reflexivity.
  - reflexivity.
  - vm_compute. discriminate.
  - vm_compute. split; discriminate.
  - vm_compute. split; discriminate.
  - reflexivity.
  - reflexivity.
  - vm_compute. reflexivity.
  - reflexivity.
Defined.

End HeartbeatFreshness.

Section SuspendWindow.
Import Plugin HeartbeatMemory Scenario.

Lemma quot_1000_bounds a :
  (0 <= a -> 1000 * Z.quot a 1000 <= a < 1000 * Z.quot a 1000 + 1000)
  /\ (a < 0 -> Z.quot a 1000 <= 0).
Proof.
  pose proof (Z.quot_rem' a 1000) as Hqr. split; intros Ha.
  - pose proof (Z.rem_bound_pos a 1000 Ha ltac:(lia)) as Hr.
    generalize dependent (Z.rem a 1000). generalize dependent (Z.quot a 1000).
    intros q r Hqr Hr. lia.
  - assert (Hr : -1000 < Z.rem a 1000 <= 0).
    { change (-1000) with (- (1000)). apply Z.rem_bound_pos_neg; lia. }
    generalize dependent (Z.rem a 1000). generalize dependent (Z.quot a 1000).
    intros q r Hqr Hr. lia.
Qed.

(** X7. The suspension window in wall-clock milliseconds. Seconds are truncated
    milliseconds, so after [Suspend] at millisecond [m0] (at least one second
    into the epoch) a suspension for expire duration [E] lasts more than
    [E - 1] and at most [E] seconds: every [Check] whose wall clock lies in
    [[m0, m0 + 1000 * E - 1000]] answers stay_unchanged=true, heartbeats
    reported meanwhile notwithstanding, and from [m0 + 1000 * E] on the
    checker is no longer suspended. *)
Theorem Suspend_window_milliseconds r m0 m rep req :
  let E := CheckRequest.ExpireDurationSec req in
  let r' := fst (Report (Suspend r m0) rep) in
  1000 <= m0 ->
  Int64.in_range m0 ->
  Int64.in_range m ->
  (m0 <= m <= m0 + 1000 * E - 1000 ->
     Check r' m req
       = Ok (CheckResponse.mk false (lastHeartbeat r' (CheckRequest.InstanceId req)) true))
  /\ (m0 + 1000 * E <= m ->
       skipCheck r' m (CheckRequest.InstanceId req) E = false).
Proof.
  intros E r' Hm0 Hr0 Hr.
  assert (Hs : suspendTimeSec r' = Z.quot m0 1000).
  { cbn. apply div_1000_exact. exact Hr0. }
  pose proof (proj1 (quot_1000_bounds m0) ltac:(lia)) as Hq0.
  pose proof (quot_1000_bounds m) as [Hq Hqneg].
  pose proof (div_1000_exact m Hr) as Hnow.
  pose proof (div_range m 1000) as Hnowr.
  split.
  - intros Hwin. apply Check_suspended, skipCheck_true. fold E.
    specialize (Hq ltac:(lia)). clear Hqneg.
    rewrite Hs. rewrite Hnow in *.
    generalize dependent (Z.quot m 1000). generalize dependent (Z.quot m0 1000).
    intros. rewrite sub_later by first [assumption | lia]. lia.
  - intros Hafter.
    destruct (skipCheck r' m (CheckRequest.InstanceId req) E) eqn:Hskip;
      [| reflexivity].
    exfalso. apply skipCheck_true in Hskip. rewrite Hs in Hskip.
    destruct Hskip as (Hpos & Hle & Hlt).
    rewrite sub_later in Hlt by first [assumption | lia]. rewrite Hnow in Hle, Hlt.
    clear Hs Hnow Hnowr.
    destruct (Z.le_gt_cases 0 m) as [Hm | Hm];
      [specialize (Hq Hm); clear Hqneg | specialize (Hqneg Hm); clear Hq];
      generalize dependent (Z.quot m 1000); generalize dependent (Z.quot m0 1000);
      intros; lia.
Qed.

Lemma Suspend_window_milliseconds_example :
  Check (fst (Report (Suspend fresh 1000500)
                (ReportRequest.mk (QueryRequest.mk "i" "" 0 true) "" 1001 1)))
        1059500 (checkRequest "i" true 60 5000)
    = Ok (CheckResponse.mk false 1001 true)
  /\ skipCheck (fst (Report (Suspend fresh 1000500)
                (ReportRequest.mk (QueryRequest.mk "i" "" 0 true) "" 1001 1)))
        1060500 "i" 60 = false.
Proof.
  destruct (Suspend_window_milliseconds fresh 1000500 1059500
              (ReportRequest.mk (QueryRequest.mk "i" "" 0 true) "" 1001 1)
              (checkRequest "i" true 60 5000))
    as (Hin & _);
    try (vm_compute; first [discriminate | split; discriminate]).
  destruct (Suspend_window_milliseconds fresh 1000500 1060500
              (ReportRequest.mk (QueryRequest.mk "i" "" 0 true) "" 1001 1)
              (checkRequest "i" true 60 5000))
    as (_ & Hout);
    try (vm_compute; first [discriminate | split; discriminate]).
  split.
  - rewrite Hin by (vm_compute; split; discriminate). reflexivity.
  - apply Hout. vm_compute. discriminate.
Defined.

End SuspendWindow.

(** ** The beat caches: what a read holds *)
Section BeatCacheReads.
Import Utils Apiservice Leader CacheScenario LeaderSnapshot.

Lemma Get_fill_lookup records :
  forall (ret ret' : gmap string ReadBeatRecord),
    RemoteBeatRecordCache.Get_fill records ret = Returned ret' ->
    forall k,
      ret' !! k = match lastRecordFor k records with
                  | Some record => Some (readOf record)
                  | None => ret !! k
                  end.
Proof.
  induction records as [| o records IH]; intros ret ret';
    cbn [RemoteBeatRecordCache.Get_fill lastRecordFor].
  - intros [= <-] k. reflexivity.
  - destruct o as [record |]; [| discriminate].
    destruct (ret !! HeartbeatRecord.InstanceId record) as [val |] eqn:Hval;
      [| discriminate].
    intros Hfill k. rewrite (IH _ _ Hfill k).
    destruct (lastRecordFor k records); [reflexivity |].
    destruct (decide (HeartbeatRecord.InstanceId record = k)) as [<- | Hne].
    + rewrite lookup_insert_eq. reflexivity.
    + rewrite lookup_insert_ne by exact Hne. reflexivity.
Qed.

(** X9. When the remote Get returns, each requested key holds the zero record
    with exist=false if the response has no record for it, and otherwise the
    time and the exist flag of the last response record for it; Server and
    Count are empty and 0 in every entry, and there are no other entries. *)
Theorem RemoteGet_entries {W : Type}
    (rc : RemoteBeatRecordCache.t W) (keys : list string) (w w' : W)
    (ret : gmap string ReadBeatRecord) :
  let records := GetHeartbeatsResponse.GetRecords
                   (snd (RemoteBeatRecordCache.getter rc (GetHeartbeatsRequest.mk keys) w)) in
  RemoteBeatRecordCache.Get rc keys w = (w', Returned ret) ->
  (forall k, k ∈ keys ->
     ret !! k = Some (match lastRecordFor k records with
                      | Some record => readOf record
                      | None => mkReadBeatRecord (mkRecordValue "" 0 0) false
                      end))
  /\ (forall k, k ∉ keys -> ret !! k = None)
  /\ (forall k entry, ret !! k = Some entry ->
        Server (Record_ entry) = "" /\ Count (Record_ entry) = 0).
Proof.
  intros records. unfold RemoteBeatRecordCache.Get. subst records.
  destruct (RemoteBeatRecordCache.getter rc _ w) as [w1 resp]. cbn [snd].
  intros [= _ Hfill].
  pose proof (Get_fill_lookup _ _ _ Hfill) as Hlookup.
  assert (Hin : forall k, k ∈ keys ->
            ret !! k = Some (match lastRecordFor k (GetHeartbeatsResponse.GetRecords resp) with
                             | Some record => readOf record
                             | None => mkReadBeatRecord (mkRecordValue "" 0 0) false
                             end)).
  { intros k Hk. rewrite Hlookup, Get_init_lookup, decide_True by exact Hk.
    destruct (lastRecordFor k _); reflexivity. }
  assert (Hout : forall k, k ∉ keys -> ret !! k = None).
  { intros k Hk.
    destruct (ret !! k) as [entry |] eqn:Hentry; [| reflexivity].
    exfalso.
    destruct (requested_or_unrequested keys (GetHeartbeatsResponse.GetRecords resp))
      as [Hall | Hex].
    - destruct (Get_fill_requested keys _ Hall _ (Get_init_keys keys))
        as (ret0 & Hfill0 & Hdom).
      rewrite Hfill in Hfill0. injection Hfill0 as <-.
      apply Hk, Hdom. eauto.
    - rewrite (Get_fill_unrequested keys _ Hex _ (Get_init_keys keys)) in Hfill.
      discriminate. }
  split; [exact Hin |]. split; [exact Hout |].
  intros k entry Hentry.
  destruct (decide (k ∈ keys)) as [Hk | Hk].
  - rewrite (Hin k Hk) in Hentry. injection Hentry as <-.
    destruct (lastRecordFor k _); split; reflexivity.
  - rewrite (Hout k Hk) in Hentry. discriminate.
Qed.

Lemma RemoteGet_entries_example :
  exists ret,
    RemoteBeatRecordCache.Get
      (recording (Some (GetHeartbeatsResponse.mk
                          [Some (HeartbeatRecord.mk "a" 7 true);
                           Some (HeartbeatRecord.mk "a" 9 false)])))
      ["a"; "b"] []
      = ([], Returned ret)
    /\ ret !! "a" = Some (mkReadBeatRecord (mkRecordValue "" 9 0) false)
    /\ ret !! "b" = Some (mkReadBeatRecord (mkRecordValue "" 0 0) false).
Proof.
  eexists. split; [vm_compute; reflexivity |].
  match goal with
  | |- ?ret !! _ = _ /\ _ =>
      destruct (RemoteGet_entries
                  (recording (Some (GetHeartbeatsResponse.mk
                                      [Some (HeartbeatRecord.mk "a" 7 true);
                                       Some (HeartbeatRecord.mk "a" 9 false)])))
                  ["a"; "b"] [] [] ret) as (Hin & _);
        [vm_compute; reflexivity |]
  end.
  split.
  - rewrite (Hin "a") by (left). reflexivity.
  - rewrite (Hin "b") by (right; left). reflexivity.
Defined.

End BeatCacheReads.

Section LocalSnapshot.
Import Utils Apiservice Leader CacheScenario LeaderSnapshot.

Lemma Snapshot_fold (entries : list (string * RecordValue)) :
  forall (ret : gmap string ReadBeatRecord) k entry,
    foldl (fun ret kv => <[fst kv := mkReadBeatRecord (snd kv) false]> ret)
          ret entries !! k = Some entry ->
    ret !! k = Some entry
    \/ (Exist entry = false /\ (k, Record_ entry) ∈ entries).
Proof.
  induction entries as [| [k0 v0] entries IH]; intros ret k entry; cbn [foldl fst snd].
  - tauto.
  - intros Hfold. destruct (IH _ _ _ Hfold) as [Hret | [Hexist Hin]].
    + destruct (decide (k0 = k)) as [-> | Hne].
      * rewrite lookup_insert_eq in Hret. injection Hret as <-.
        right. split; [reflexivity | left].
      * rewrite lookup_insert_ne in Hret by exact Hne. left. exact Hret.
    + right. split; [exact Hexist | right; exact Hin].
Qed.

(** X10. Every entry of a local Snapshot carries exist=false, although its record
    is one a shard of the cache stores under that key: Snapshot fills in the
    record only. *)
Theorem LocalSnapshot_entries_not_marked (lc : LocalBeatRecordCache.t) k entry :
  LocalBeatRecordCache_Snapshot lc !! k = Some entry ->
  Exist entry = false
  /\ exists shard,
       shard ∈ shards (LocalBeatRecordCache.beatCache lc)
       /\ shard !! k = Some (Record_ entry).
Proof.
  unfold LocalBeatRecordCache_Snapshot. intros Hsnap.
  destruct (Snapshot_fold _ _ _ _ Hsnap) as [Hempty | [Hexist Hin]].
  - rewrite lookup_empty in Hempty. discriminate.
  - split; [exact Hexist |]. unfold SegmentMap_Range in Hin.
    apply list_elem_of_join in Hin as (l & Hkl & Hl).
    apply list_elem_of_fmap in Hl as (shard & -> & Hshard).
    exists shard. split; [exact Hshard |].
    apply elem_of_map_to_list in Hkl. exact Hkl.
Qed.

Lemma LocalSnapshot_entries_not_marked_S1 :
  LocalBeatRecordCache_Snapshot S1_cache !! "a"
    = Some (mkReadBeatRecord (mkRecordValue "srv" 100 1) false)
  /\ Exist (mkReadBeatRecord (mkRecordValue "srv" 100 1) false) = false.
Proof.
  assert (Hsnap : LocalBeatRecordCache_Snapshot S1_cache !! "a"
                  = Some (mkReadBeatRecord (mkRecordValue "srv" 100 1) false))
    by (vm_compute; reflexivity).
  split; [exact Hsnap |].
  apply (LocalSnapshot_entries_not_marked S1_cache "a" _ Hsnap).
Defined.

End LocalSnapshot.

(** ** The heartbeat RPCs: empty requests and what a peer's answer feeds *)
Section HeartbeatAccessMore.
Import Plugin Apiservice Discover Leader CacheScenario.
Context {C : Type} `{HealthChecker C}.

(** X11. A request without instance ids (a nil request included) is answered
    with an empty response and no error by both RPCs, without any call to
    the checker: the server is left as it was. *)
Theorem BatchHeartbeat_empty_request (g : DiscoverServer C) req req' :
  GetHeartbeatsRequest.GetInstanceIds req = [] ->
  DelHeartbeatsRequest.GetInstanceIds req' = [] ->
  BatchGetHeartbeat g req = (g, Ok (GetHeartbeatsResponse.mk []))
  /\ BatchDelHeartbeat g req' = (g, Ok DelHeartbeatsResponse.mk).
Proof.
  intros Hget Hdel. unfold BatchGetHeartbeat, BatchDelHeartbeat.
  rewrite Hget, Hdel. destruct g as [checkers]. cbn [Checkers].
  destruct (checkers !! HealthCheck_HEARTBEAT) as [checker |] eqn:Hsome.
  - cbn [BatchGetHeartbeat_loop BatchDelHeartbeat_loop].
    rewrite (insert_id _ _ _ Hsome). split; reflexivity.
  - split; reflexivity.
Qed.

Lemma requested_of_ids keys (new : list (option HeartbeatRecord.t)) :
  forall ids,
    map (fmap HeartbeatRecord.InstanceId) new = map Some ids ->
    (forall id, id ∈ ids -> id ∈ keys) ->
    Forall (requested keys) new.
Proof.
  induction new as [| o new IH]; intros ids Hmap Hsub; [constructor |].
  destruct ids as [| id ids]; [discriminate |].
  cbn [map] in Hmap. injection Hmap as Ho Hnew.
  constructor.
  - destruct o as [record |]; [| discriminate]. cbn in Ho. injection Ho as Ho.
    cbn [requested]. rewrite Ho. apply Hsub. left.
  - apply (IH ids Hnew). intros id' Hin. apply Hsub. right. exact Hin.
Qed.

(** X12. What BatchGetHeartbeat answers for a list of keys is a response the
    remote cache's Get absorbs: with any getter handing that response back
    for those keys, Get returns (no nil dereference) a map with an entry for
    exactly the requested keys. *)
Theorem BatchGetHeartbeat_feeds_RemoteGet {W : Type}
    (g g' : DiscoverServer C) (keys : list string) (resp : GetHeartbeatsResponse.t)
    (rc : RemoteBeatRecordCache.t W) (w w' : W) :
  BatchGetHeartbeat g (Some (GetHeartbeatsRequest.mk keys)) = (g', Ok resp) ->
  RemoteBeatRecordCache.getter rc (GetHeartbeatsRequest.mk keys) w = (w', Some resp) ->
  exists ret,
    RemoteBeatRecordCache.Get rc keys w = (w', Returned ret)
    /\ (forall k, k ∈ keys <-> is_Some (ret !! k)).
Proof.
  intros Hbatch Hgetter.
  assert (Hall : Forall (requested keys) (GetHeartbeatsResponse.Records resp)).
  { unfold BatchGetHeartbeat in Hbatch.
    destruct (Checkers g !! HealthCheck_HEARTBEAT) as [checker |].
    - cbn [GetHeartbeatsRequest.GetInstanceIds GetHeartbeatsRequest.InstanceIds] in Hbatch.
      destruct (BatchGetHeartbeat_loop checker keys []) as [c' [records | err]] eqn:Hloop;
        [| discriminate].
      injection Hbatch as _ <-. cbn [GetHeartbeatsResponse.Records].
      destruct (BatchGetHeartbeat_loop_ok _ _ _ _ _ Hloop) as (new & -> & Hnew).
      apply (requested_of_ids keys new keys Hnew). tauto.
    - injection Hbatch as _ <-. constructor. }
  unfold RemoteBeatRecordCache.Get. rewrite Hgetter.
  cbn [GetHeartbeatsResponse.GetRecords].
  destruct (Get_fill_requested keys _ Hall _ (Get_init_keys keys)) as (ret & -> & Hdom).
  eauto.
Qed.

End HeartbeatAccessMore.

Section HeartbeatAccessMoreScenarios.
Import Plugin Apiservice Discover Leader CacheScenario ServerScenario.

Lemma BatchHeartbeat_empty_request_flaky :
  BatchGetHeartbeat flaky_server None
    = (flaky_server, Ok (GetHeartbeatsResponse.mk []))
  /\ BatchDelHeartbeat flaky_server (Some (DelHeartbeatsRequest.mk []))
    = (flaky_server, Ok DelHeartbeatsResponse.mk).
Proof.
  apply (BatchHeartbeat_empty_request flaky_server None
           (Some (DelHeartbeatsRequest.mk []))); reflexivity.
Defined.

Lemma BatchGetHeartbeat_feeds_RemoteGet_flaky :
  exists ret,
    RemoteBeatRecordCache.Get
      (recording (Some (GetHeartbeatsResponse.mk
                          [Some (HeartbeatRecord.mk "a" 5 true);
                           Some (HeartbeatRecord.mk "c" 5 true)])))
      ["a"; "c"] []
      = ([], Returned ret)
    /\ (forall k, k ∈ ["a"; "c"] <-> is_Some (ret !! k)).
Proof.
  apply (BatchGetHeartbeat_feeds_RemoteGet flaky_server
           (mkDiscoverServer {[HealthCheck_HEARTBEAT := mkFlaky ["a"; "c"]]})
           ["a"; "c"]
           (GetHeartbeatsResponse.mk
              [Some (HeartbeatRecord.mk "a" 5 true);
               Some (HeartbeatRecord.mk "c" 5 true)])).
  - vm_compute. reflexivity.
  - reflexivity.
Defined.

End HeartbeatAccessMoreScenarios.

(** ** The memory checker behind the RPCs and behind a remote cache *)
Section MemoryPeer.
Import Plugin Apiservice Discover HeartbeatMemory Scenario Leader CacheScenario
       LeaderSnapshot ServerScenario.

Lemma BatchDelHeartbeat_loop_memory (r : MemoryHealthChecker) keys :
  BatchDelHeartbeat_loop r keys
    = (foldl (fun r key => fst (HeartbeatMemory.Delete r key)) r keys, None).
Proof.
  revert r. induction keys as [| key keys IH]; intros r;
    cbn [BatchDelHeartbeat_loop foldl]; [reflexivity |].
  cbn [Plugin.Delete MemoryHealthChecker_HealthChecker HeartbeatMemory.Delete fst].
  apply IH.
Qed.

Lemma Delete_all_lastHeartbeat keys :
  forall (r : MemoryHealthChecker) id,
    lastHeartbeat (foldl (fun r key => fst (HeartbeatMemory.Delete r key)) r keys) id
      = if decide (id ∈ keys) then 0 else lastHeartbeat r id.
Proof.
  induction keys as [| key keys IH]; intros r id; cbn [foldl].
  - rewrite decide_False by apply not_elem_of_nil. reflexivity.
  - rewrite IH. unfold lastHeartbeat at 1 2. cbn [HeartbeatMemory.Delete fst hbRecords].
    destruct (decide (id ∈ keys)) as [Hin | Hnin].
    + rewrite decide_True by (right; exact Hin). reflexivity.
    + destruct (decide (id = key)) as [-> | Hne].
      * rewrite decide_True by left. rewrite lookup_delete_eq. reflexivity.
      * rewrite decide_False by (rewrite elem_of_cons; tauto).
        rewrite lookup_delete_ne by congruence. reflexivity.
Qed.

(** X13. With the memory checker as heartbeat checker, BatchGetHeartbeat never
    fails, leaves the server as it was, and answers in request order one
    record per id carrying the id and its last reported heartbeat time (0
    for an unreported id). *)
Theorem BatchGetHeartbeat_memory_times (g : DiscoverServer MemoryHealthChecker)
    (r : MemoryHealthChecker) (keys : list string) :
  Checkers g !! HealthCheck_HEARTBEAT = Some r ->
  BatchGetHeartbeat g (Some (GetHeartbeatsRequest.mk keys))
    = (g, Ok (GetHeartbeatsResponse.mk
                (map (fun key => Some (HeartbeatRecord.mk key (lastHeartbeat r key) false))
                     keys))).
Proof.
  intros Hsome. unfold BatchGetHeartbeat. rewrite Hsome.
  cbn [GetHeartbeatsRequest.GetInstanceIds GetHeartbeatsRequest.InstanceIds].
  rewrite BatchGetHeartbeat_loop_memory, (insert_id _ _ _ Hsome).
  destruct g. reflexivity.
Qed.

Lemma BatchGetHeartbeat_memory_times_S2 :
  BatchGetHeartbeat S2_server (Some (GetHeartbeatsRequest.mk ["j"; "i"; "i"]))
    = (S2_server,
       Ok (GetHeartbeatsResponse.mk [Some (HeartbeatRecord.mk "j" 0 false);
                                     Some (HeartbeatRecord.mk "i" 100 false);
                                     Some (HeartbeatRecord.mk "i" 100 false)])).
Proof.
  apply (BatchGetHeartbeat_memory_times S2_server S2_checker ["j"; "i"; "i"]).
  reflexivity.
Defined.

(** X14. With the memory checker as heartbeat checker, BatchDelHeartbeat never
    fails; afterwards every requested id reads as unreported (time 0), every
    other id keeps its last heartbeat time, the suspend time is unchanged,
    and the other checkers of the server are untouched. *)
Theorem BatchDelHeartbeat_memory (g : DiscoverServer MemoryHealthChecker)
    (r : MemoryHealthChecker) (keys : list string) :
  Checkers g !! HealthCheck_HEARTBEAT = Some r ->
  exists r',
    BatchDelHeartbeat g (Some (DelHeartbeatsRequest.mk keys))
      = (mkDiscoverServer (<[HealthCheck_HEARTBEAT := r']> (Checkers g)),
         Ok DelHeartbeatsResponse.mk)
    /\ (forall id, lastHeartbeat r' id = if decide (id ∈ keys) then 0
                                         else lastHeartbeat r id)
    /\ SuspendTimeSec r' = SuspendTimeSec r.
Proof.
  intros Hsome. unfold BatchDelHeartbeat. rewrite Hsome.
  cbn [DelHeartbeatsRequest.GetInstanceIds DelHeartbeatsRequest.InstanceIds].
  rewrite BatchDelHeartbeat_loop_memory. eexists. split; [reflexivity |].
  split; [apply Delete_all_lastHeartbeat |].
  clear Hsome. revert r. induction keys as [| key keys IH]; intros r; cbn [foldl].
  - reflexivity.
  - rewrite IH. reflexivity.
Qed.

Lemma BatchDelHeartbeat_memory_S2 :
  exists r',
    BatchDelHeartbeat S2_server (Some (DelHeartbeatsRequest.mk ["i"; "k"]))
      = (mkDiscoverServer (<[HealthCheck_HEARTBEAT := r']> (Checkers S2_server)),
         Ok DelHeartbeatsResponse.mk)
    /\ lastHeartbeat r' "i" = 0.
Proof.
  destruct (BatchDelHeartbeat_memory S2_server S2_checker ["i"; "k"] eq_refl)
    as (r' & Hdel & Hlast & _).
  exists r'. split; [exact Hdel |]. rewrite Hlast. reflexivity.
Defined.

End MemoryPeer.

Section RemoteReadOfMemoryPeer.
Import Plugin Apiservice Discover HeartbeatMemory Scenario Leader CacheScenario
       LeaderSnapshot ServerScenario.

Lemma lastRecordFor_memory (r : MemoryHealthChecker) keys k :
  lastRecordFor k
    (map (fun key => Some (HeartbeatRecord.mk key (lastHeartbeat r key) false)) keys)
    = if decide (k ∈ keys)
      then Some (HeartbeatRecord.mk k (lastHeartbeat r k) false)
      else None.
Proof.
  induction keys as [| key keys IH]; cbn [map lastRecordFor].
  - rewrite decide_False by apply not_elem_of_nil. reflexivity.
  - rewrite IH. destruct (decide (k ∈ keys)) as [Hin | Hnin].
    + rewrite decide_True by (right; exact Hin). reflexivity.
    + cbn [HeartbeatRecord.InstanceId].
      destruct (decide (key = k)) as [-> | Hne].
      * rewrite decide_True by left. reflexivity.
      * rewrite decide_False by (rewrite elem_of_cons; intros [? | ?]; congruence).
        reflexivity.
Qed.

(** X15. A remote read served by a peer whose heartbeat checker is the memory
    checker: when the getter hands back what the peer's BatchGetHeartbeat
    answers for the keys, Get returns, and every requested key holds the
    peer's last heartbeat time with exist=false, also for instances the
    peer has a record of. *)
Theorem RemoteGet_of_memory_peer {W : Type}
    (rc : RemoteBeatRecordCache.t W) (keys : list string) (w w' : W)
    (g g' : DiscoverServer MemoryHealthChecker) (r : MemoryHealthChecker)
    (resp : GetHeartbeatsResponse.t) :
  Checkers g !! HealthCheck_HEARTBEAT = Some r ->
  BatchGetHeartbeat g (Some (GetHeartbeatsRequest.mk keys)) = (g', Ok resp) ->
  RemoteBeatRecordCache.getter rc (GetHeartbeatsRequest.mk keys) w = (w', Some resp) ->
  exists ret,
    RemoteBeatRecordCache.Get rc keys w = (w', Returned ret)
    /\ (forall k, k ∈ keys ->
         ret !! k = Some (mkReadBeatRecord
                            (mkRecordValue "" (lastHeartbeat r k) 0) false)).
Proof.
  intros Hsome Hbatch Hgetter.
  unfold BatchGetHeartbeat in Hbatch. rewrite Hsome in Hbatch.
  cbn [GetHeartbeatsRequest.GetInstanceIds GetHeartbeatsRequest.InstanceIds] in Hbatch.
  rewrite BatchGetHeartbeat_loop_memory in Hbatch. injection Hbatch as _ <-.
  cbn [app] in Hgetter.
  unfold RemoteBeatRecordCache.Get. rewrite Hgetter.
  cbn [GetHeartbeatsResponse.GetRecords GetHeartbeatsResponse.Records].
  set (records := map _ keys).
  assert (Hall : Forall (requested keys) records).
  { subst records. apply Forall_map, Forall_forall. intros key Hkey. exact Hkey. }
  destruct (Get_fill_requested keys records Hall _ (Get_init_keys keys))
    as (ret & Hfill & _).
  rewrite Hfill. exists ret. split; [reflexivity |].
  intros k Hk. rewrite (Get_fill_lookup _ _ _ Hfill k). subst records.
  rewrite lastRecordFor_memory, decide_True by exact Hk. reflexivity.
Qed.

Lemma RemoteGet_of_memory_peer_S2 :
  exists ret,
    RemoteBeatRecordCache.Get
      (recording (Some (GetHeartbeatsResponse.mk
                          [Some (HeartbeatRecord.mk "i" 100 false)])))
      ["i"] []
      = ([], Returned ret)
    /\ (forall k, k ∈ ["i"] ->
         ret !! k = Some (mkReadBeatRecord
                            (mkRecordValue "" (lastHeartbeat S2_checker k) 0) false)).
Proof.
  apply (RemoteGet_of_memory_peer
           (recording (Some (GetHeartbeatsResponse.mk
                               [Some (HeartbeatRecord.mk "i" 100 false)])))
           ["i"] [] [] S2_server S2_server S2_checker
           (GetHeartbeatsResponse.mk [Some (HeartbeatRecord.mk "i" 100 false)])).
  - reflexivity.
  - vm_compute. reflexivity.
  - reflexivity.
Defined.

End RemoteReadOfMemoryPeer.

(** ** Starting and stopping the maintenance jobs *)
Section MaintainJobsStart.
Import Job Maintain.
Context {J S O : Type} `{maintainJob J} `{initJob J O} `{electionStore S}.

Lemma enabledNames_cons (cfg : JobConfig.t O) configs :
  enabledNames (cfg :: configs)
    = if JobConfig.Enable cfg then JobConfig.Name cfg :: enabledNames configs
      else enabledNames configs.
Proof. unfold enabledNames. cbn [List.filter]. destruct (JobConfig.Enable cfg); reflexivity. Qed.

(** What a run of the loop has done when it stops, with or without error:
    the jobs launched are a prefix of the enabled names, each launched once,
    known, not started before and now started. *)
Lemma StartMaintianJobs_loop_spec ctx (configs : list (JobConfig.t O)) :
  forall (mj mj' : MaintainJobs J S) effects err,
    StartMaintianJobs_loop ctx configs mj = (mj', effects, err) ->
    (exists rest, enabledNames configs = launched effects ++ rest
                  /\ (err = None -> rest = []))
    /\ NoDup (launched effects)
    /\ (forall name, name ∈ launched effects ->
          is_Some (jobs mj !! name) /\ name ∉ startedJobs mj)
    /\ startedJobs mj' = list_to_set (launched effects) ∪ startedJobs mj
    /\ (forall name, is_Some (jobs mj' !! name) <-> is_Some (jobs mj !! name))
    /\ Forall (fun c => c = ctx) (launchedUnder effects)
    /\ cancel mj' = cancel mj.
Proof.
  induction configs as [| cfg configs IH]; intros mj mj' effects err;
    cbn [StartMaintianJobs_loop].
  - intros [= <- <- <-]. cbn. split; [exists []; split; reflexivity || tauto |].
    split; [constructor |]. split; [intros name Hin; inversion Hin |].
    split; [set_solver |]. split; [tauto |]. split; [constructor | reflexivity].
  - rewrite enabledNames_cons.
    destruct (JobConfig.Enable cfg); cbn [negb].
    + destruct (jobs mj !! JobConfig.Name cfg) as [job |] eqn:Hjob.
      2:{ intros [= <- <- <-]. cbn. split; [eexists; split; [reflexivity | discriminate] |].
          split; [constructor |]. split; [intros name Hin; inversion Hin |].
          split; [set_solver |]. split; [tauto |]. split; [constructor | reflexivity]. }
      destruct (decide (JobConfig.Name cfg ∈ startedJobs mj)) as [Hdup | Hnew].
      { intros [= <- <- <-]. cbn. split; [eexists; split; [reflexivity | discriminate] |].
        split; [constructor |]. split; [intros name Hin; inversion Hin |].
        split; [set_solver |]. split; [tauto |]. split; [constructor | reflexivity]. }
      destruct (init job (JobConfig.Option cfg)) as [job' [ierr |]].
      { intros [= <- <- <-]. cbn [launched launchedUnder omap jobs startedJobs cancel].
        split; [eexists; split; [reflexivity | discriminate] |].
        split; [constructor |]. split; [intros name Hin; inversion Hin |].
        split; [set_solver |].
        split; [| split; [constructor | reflexivity]].
        intros name. destruct (decide (JobConfig.Name cfg = name)) as [<- | Hne].
        - rewrite lookup_insert_eq, Hjob. split; eauto.
        - rewrite lookup_insert_ne by exact Hne. reflexivity. }
      cbn [storage jobs startedJobs cancel].
      destruct (StartLeaderElection (storage mj) _) as [storage' [eerr |]].
      { intros [= <- <- <-]. cbn [launched launchedUnder omap jobs startedJobs cancel].
        split; [eexists; split; [reflexivity | discriminate] |].
        split; [constructor |]. split; [intros name Hin; inversion Hin |].
        split; [set_solver |].
        split; [| split; [constructor | reflexivity]].
        intros name. destruct (decide (JobConfig.Name cfg = name)) as [<- | Hne].
        - rewrite lookup_insert_eq, Hjob. split; eauto.
        - rewrite lookup_insert_ne by exact Hne. reflexivity. }
      cbn [storage jobs startedJobs cancel].
      destruct (StartMaintianJobs_loop ctx configs _) as [[mj1 effects1] err1] eqn:Hloop.
      intros [= <- <- <-].
      destruct (IH _ _ _ _ Hloop) as ((rest & Hnames & Hrest) & Hnodup & Hknown
                                      & Hstarted & Hjobs & Hctx & Hcancel).
      cbn [jobs startedJobs cancel] in Hknown, Hstarted, Hjobs, Hcancel.
      assert (Hjobs0 : forall name,
                 is_Some (<[JobConfig.Name cfg := job']> (jobs mj) !! name)
                 <-> is_Some (jobs mj !! name)).
      { intros name. destruct (decide (JobConfig.Name cfg = name)) as [<- | Hne].
        - rewrite lookup_insert_eq, Hjob. split; eauto.
        - rewrite lookup_insert_ne by exact Hne. reflexivity. }
      cbn [launched launchedUnder omap]. fold (launched effects1).
      fold (launchedUnder effects1).
      split; [exists rest; split; [cbn [app]; rewrite Hnames; reflexivity | exact Hrest] |].
      split.
      { constructor; [| exact Hnodup]. intros Hin.
        destruct (Hknown _ Hin) as [_ Hnot]. apply Hnot. set_solver. }
      split.
      { intros name Hin. apply elem_of_cons in Hin as [-> | Hin].
        - split; [rewrite Hjob; eauto | exact Hnew].
        - destruct (Hknown _ Hin) as [Hsome Hnot]. split.
          + apply Hjobs0. exact Hsome.
          + intros Hs. apply Hnot. set_solver. }
      split; [rewrite Hstarted; set_solver |].
      split; [intros name; rewrite Hjobs; apply Hjobs0 |].
      split; [constructor; [reflexivity | exact Hctx] | exact Hcancel].
    + destruct (StartMaintianJobs_loop ctx configs mj) as [[mj1 effects1] err1] eqn:Hloop.
      intros [= <- <- <-]. cbn [launched launchedUnder omap].
      fold (launched effects1). fold (launchedUnder effects1).
      exact (IH _ _ _ _ Hloop).
Qed.


(** A loop whose first enabled config names a job that is known and already
    started stops there with the duplicate error, nothing initialised,
    campaigned or launched. *)
Lemma StartMaintianJobs_loop_duplicate ctx (configs : list (JobConfig.t O)) :
  forall (mj : MaintainJobs J S) name rest,
    enabledNames configs = name :: rest ->
    is_Some (jobs mj !! name) ->
    name ∈ startedJobs mj ->
    exists effects,
      StartMaintianJobs_loop ctx configs mj
        = (mj, effects, Some ("[Maintain][Job] job (" +:+ name +:+ ") duplicated"))
      /\ launched effects = [].
Proof.
  induction configs as [| cfg configs IH]; intros mj name rest Hnames [job Hjob] Hdup;
    [discriminate |].
  rewrite enabledNames_cons in Hnames. cbn [StartMaintianJobs_loop].
  destruct (JobConfig.Enable cfg); cbn [negb].
  - injection Hnames as -> _. rewrite Hjob, decide_True by exact Hdup.
    eexists. split; reflexivity.
  - destruct (IH mj name rest Hnames ltac:(eauto) Hdup) as (effects & -> & Hnone).
    eexists. split; [reflexivity | exact Hnone].
Qed.

(** X16. However StartMaintianJobs ends, with or without error: the goroutines it
    launched are, in order, those of a prefix of the enabled configs, one
    per name, all under the new context; the started jobs are those started
    before plus the launched ones (nothing is rolled back on error); no job
    is added to or removed from the registry; and the receiver holds the new
    context's cancel function. *)
Theorem StartMaintianJobs_launches (ctx : nat) (mj mj' : MaintainJobs J S)
    (configs : list (JobConfig.t O)) effects err :
  StartMaintianJobs ctx mj configs = (mj', effects, err) ->
  (exists rest, enabledNames configs = launched effects ++ rest)
  /\ NoDup (launched effects)
  /\ startedJobs mj' = list_to_set (launched effects) ∪ startedJobs mj
  /\ (forall name, is_Some (jobs mj' !! name) <-> is_Some (jobs mj !! name))
  /\ Forall (fun c => c = ctx) (launchedUnder effects)
  /\ cancel mj' = Some ctx.
Proof.
  unfold StartMaintianJobs. intros Hloop.
  destruct (StartMaintianJobs_loop_spec _ _ _ _ _ _ Hloop)
    as ((rest & Hnames & _) & Hnodup & _ & Hstarted & Hjobs & Hctx & Hcancel).
  cbn [jobs startedJobs cancel] in *.
  split; [eauto |]. repeat (split; [assumption |]). exact Hcancel.
Qed.

(** X17. StartMaintianJobs returns nil only if the enabled configs name pairwise
    different jobs, all in the registry and none started before; then every
    enabled config has its goroutine, in config order, and the started jobs
    are those started before plus all enabled names. *)
Theorem StartMaintianJobs_success (ctx : nat) (mj mj' : MaintainJobs J S)
    (configs : list (JobConfig.t O)) effects :
  StartMaintianJobs ctx mj configs = (mj', effects, None) ->
  launched effects = enabledNames configs
  /\ NoDup (enabledNames configs)
  /\ (forall name, name ∈ enabledNames configs ->
        is_Some (jobs mj !! name) /\ name ∉ startedJobs mj)
  /\ startedJobs mj' = list_to_set (enabledNames configs) ∪ startedJobs mj.
Proof.
  unfold StartMaintianJobs. intros Hloop.
  destruct (StartMaintianJobs_loop_spec _ _ _ _ _ _ Hloop)
    as ((rest & Hnames & Hrest) & Hnodup & Hknown & Hstarted & _).
  rewrite (Hrest eq_refl), app_nil_r in Hnames. rewrite Hnames.
  cbn [jobs startedJobs] in *. repeat (split; [assumption || reflexivity |]).
  exact Hstarted.
Qed.


(** X19. Starting the same configs again after a successful start fails on the
    first enabled config with the duplicate error: nothing is initialised or
    launched, but the receiver's cancel function is replaced by the second
    context's, so a following StopMaintainJobs cancels the second context
    and not the one the running goroutines were launched under. *)
Theorem StartMaintianJobs_twice (ctx ctx2 : nat) (mj mj1 : MaintainJobs J S)
    (configs : list (JobConfig.t O)) effects name rest :
  StartMaintianJobs ctx mj configs = (mj1, effects, None) ->
  enabledNames configs = name :: rest ->
  exists effects2,
    StartMaintianJobs ctx2 mj1 configs
      = (mkMaintainJobs (jobs mj1) (startedJobs mj1) (storage mj1) (Some ctx2),
         effects2,
         Some ("[Maintain][Job] job (" +:+ name +:+ ") duplicated"))
    /\ launched effects2 = []
    /\ Forall (fun c => c = ctx) (launchedUnder effects)
    /\ snd (StopMaintainJobs
              (mkMaintainJobs (jobs mj1) (startedJobs mj1) (storage mj1) (Some ctx2)))
       = Some ctx2.
Proof.
  unfold StartMaintianJobs at 1. intros Hloop Hnames.
  destruct (StartMaintianJobs_loop_spec _ _ _ _ _ _ Hloop)
    as ((rest' & Hlaunched & Hrest) & _ & Hknown & Hstarted & Hjobs & Hctx & _).
  rewrite (Hrest eq_refl), app_nil_r in Hlaunched.
  cbn [jobs startedJobs] in *.
  assert (Hin : name ∈ launched effects) by (rewrite <- Hlaunched, Hnames; left).
  unfold StartMaintianJobs.
  destruct (StartMaintianJobs_loop_duplicate ctx2 configs
              (mkMaintainJobs (jobs mj1) (startedJobs mj1) (storage mj1) (Some ctx2))
              name rest Hnames)
    as (effects2 & Hdup & Hnone).
  - cbn [jobs]. apply Hjobs. apply (Hknown name Hin).
  - cbn [startedJobs]. rewrite Hstarted. apply elem_of_union_l, elem_of_list_to_set.
    exact Hin.
  - exists effects2. split; [exact Hdup |]. split; [exact Hnone |].
    split; [exact Hctx | reflexivity].
Qed.


(** X21. On a receiver built by NewMaintainJobs, StartMaintianJobs returns nil
    only if every enabled config names one of the four catalogued jobs. *)
Theorem NewMaintainJobs_catalog (ctx : nat) (j1 j2 j3 j4 : J) (st : S)
    (mj' : MaintainJobs J S) (configs : list (JobConfig.t O)) effects :
  StartMaintianJobs ctx (NewMaintainJobs j1 j2 j3 j4 st) configs = (mj', effects, None) ->
  forall name, name ∈ enabledNames configs ->
    name = "DeleteUnHealthyInstance" \/ name = "DeleteEmptyAutoCreatedService"
    \/ name = "CleanDeletedInstances" \/ name = "CleanDeletedClients".
Proof.
  unfold StartMaintianJobs. intros Hloop name Hin.
  destruct (StartMaintianJobs_loop_spec _ _ _ _ _ _ Hloop)
    as ((rest & Hnames & Hrest) & _ & Hknown & _).
  rewrite (Hrest eq_refl), app_nil_r in Hnames. rewrite Hnames in Hin.
  destruct (Hknown name Hin) as [[job Hjob] _].
  cbn [jobs NewMaintainJobs] in Hjob.
  repeat (apply lookup_insert_Some in Hjob as [[<- _] | [_ Hjob]]; [tauto |]).
  rewrite lookup_empty in Hjob. discriminate.
Qed.

End MaintainJobsStart.

Section MaintainJobsScenarios.
Import Job Maintain ServerScenario MaintainScenario.


Lemma StartMaintianJobs_launches_catalog :
  exists mj' effects err,
    StartMaintianJobs 1 catalog
      [JobConfig.mk "CleanDeletedClients" true false;
       JobConfig.mk "CleanDeletedInstances" true true;
       JobConfig.mk "DeleteUnHealthyInstance" true false]
      = (mj', effects, err)
    /\ err = Some "[Maintain][Job] job (CleanDeletedInstances) fail to init"
    /\ launched effects = ["CleanDeletedClients"]
    /\ startedJobs mj' = list_to_set (launched effects) ∪ startedJobs catalog.
Proof.
  destruct (StartMaintianJobs 1 catalog
              [JobConfig.mk "CleanDeletedClients" true false;
               JobConfig.mk "CleanDeletedInstances" true true;
               JobConfig.mk "DeleteUnHealthyInstance" true false])
    as [[mj' effects] err] eqn:Hstart.
  exists mj', effects, err. split; [reflexivity |].
  destruct (StartMaintianJobs_launches _ _ _ _ _ _ Hstart) as (_ & _ & Hstarted & _).
  vm_compute in Hstart. injection Hstart as <- <- <-.
  split; [reflexivity |]. split; [reflexivity | exact Hstarted].
Defined.

Lemma StartMaintianJobs_success_catalog :
  exists mj' effects,
    StartMaintianJobs 1 catalog two_configs = (mj', effects, None)
    /\ launched effects = ["CleanDeletedClients"; "CleanDeletedInstances"].
Proof.
  destruct (StartMaintianJobs 1 catalog two_configs) as [[mj' effects] err] eqn:Hstart.
  assert (Herr : err = None) by (vm_compute in Hstart; congruence).
  subst err. exists mj', effects. split; [reflexivity |].
  apply (StartMaintianJobs_success _ _ _ _ _ Hstart).
Defined.

Lemma StartMaintianJobs_twice_catalog :
  exists mj1 effects effects2,
    StartMaintianJobs 1 catalog two_configs = (mj1, effects, None)
    /\ StartMaintianJobs 2 mj1 two_configs
       = (mkMaintainJobs (jobs mj1) (startedJobs mj1) (storage mj1) (Some 2%nat),
          effects2,
          Some "[Maintain][Job] job (CleanDeletedClients) duplicated").
Proof.
  destruct (StartMaintianJobs 1 catalog two_configs) as [[mj1 effects] err] eqn:Hstart.
  assert (Herr : err = None) by (vm_compute in Hstart; congruence).
  subst err.
  destruct (StartMaintianJobs_twice 1 2 _ _ _ _ "CleanDeletedClients"
              ["CleanDeletedInstances"] Hstart eq_refl)
    as (effects2 & Hsecond & _).
  exists mj1, effects, effects2. split; [reflexivity | exact Hsecond].
Defined.


Lemma NewMaintainJobs_catalog_example :
  Forall (fun name =>
            name = "DeleteUnHealthyInstance" \/ name = "DeleteEmptyAutoCreatedService"
            \/ name = "CleanDeletedInstances" \/ name = "CleanDeletedClients")
         (enabledNames two_configs).
Proof.
  destruct (StartMaintianJobs 1 catalog two_configs) as [[mj1 effects] err] eqn:Hstart.
  assert (Herr : err = None) by (vm_compute in Hstart; congruence).
  subst err. apply Forall_forall.
  exact (NewMaintainJobs_catalog 1 _ _ _ _ _ mj1 two_configs effects Hstart).
Defined.

End MaintainJobsScenarios.

(** ** The job goroutine over a run of ticks *)
Section JobRunnerTicks.
Import Job Maintain ServerScenario.
Context {J : Type} `{maintainJob J}.

(** X22. Over any run of its select loop, up to the first [ctx.Done]: the
    goroutine calls [execute] once per tick on which the store names it
    leader and [clear] once per tick on which it does not, so calls and
    ticks match one to one; the job ends in the state those calls leave, and
    nothing after [ctx.Done] has any effect. *)
Theorem runAdminJob_loop_ticks (name : string) (cases : list selected) (job : J) :
  let key := ElectionKeyMaintainJobPrefix +:+ name in
  let ticks := ticksUntilDone cases in
  let run := runAdminJob_loop name cases job in
  count_occ event_eq_dec (fst run) CallExecute
    = length (List.filter (fun storage => IsLeader storage key) ticks)
  /\ count_occ event_eq_dec (fst run) CallClear
     = length (List.filter (fun storage => negb (IsLeader storage key)) ticks)
  /\ snd run
     = foldl (fun job storage => if IsLeader storage key then execute job else clear job)
             job ticks
  /\ (forall pre post,
        runAdminJob_loop name (map TickerC pre ++ CtxDone :: post) job
          = runAdminJob_loop name (map TickerC pre) job).
Proof.
  intros key ticks run. subst ticks run.
  split; [| split; [| split]].
  - revert job. induction cases as [| [| storage] cases IH]; intros job;
      cbn [runAdminJob_loop ticksUntilDone]; try reflexivity.
    unfold runAdminJob_f. fold key. specialize (IH (if IsLeader storage key
                                                    then execute job else clear job)).
    cbn [List.filter].
    destruct (IsLeader storage key); cbn [negb];
      destruct (runAdminJob_loop name cases _) as [evs job']; cbn [fst] in *;
      cbn [app count_occ]; repeat (destruct (event_eq_dec _ _); try congruence);
      cbn [length]; rewrite IH; reflexivity.
  - revert job. induction cases as [| [| storage] cases IH]; intros job;
      cbn [runAdminJob_loop ticksUntilDone]; try reflexivity.
    unfold runAdminJob_f. fold key. specialize (IH (if IsLeader storage key
                                                    then execute job else clear job)).
    cbn [List.filter].
    destruct (IsLeader storage key); cbn [negb];
      destruct (runAdminJob_loop name cases _) as [evs job']; cbn [fst] in *;
      cbn [app count_occ]; repeat (destruct (event_eq_dec _ _); try congruence);
      cbn [length]; rewrite IH; reflexivity.
  - revert job. induction cases as [| [| storage] cases IH]; intros job;
      cbn [runAdminJob_loop ticksUntilDone foldl]; try reflexivity.
    unfold runAdminJob_f. fold key. specialize (IH (if IsLeader storage key
                                                    then execute job else clear job)).
    destruct (IsLeader storage key); cbn [negb];
      destruct (runAdminJob_loop name cases _) as [evs job']; cbn [snd] in *;
      exact IH.
  - intros pre post. revert job.
    induction pre as [| storage pre IH]; intros job; cbn [map app runAdminJob_loop];
      [reflexivity |].
    destruct (runAdminJob_f name storage job) as [evs job1]. rewrite IH. reflexivity.
Qed.

End JobRunnerTicks.

(** ** The context the jobs run their store calls under *)
Section JobContextFacts.
Import JobContext.
Context {S K : Type} `{userStore S} `{EqDecision K}.

(** X23. buildContext looks up the user named by POLARIS_MAIN_USER, or "polaris"
    when that is unset or empty, with an empty owner. A lookup error is
    returned as the error; a found user gives a context whose operator is
    "maintain-job" and whose auth token (the two keys being different) is
    the user's token; a nil user with a nil error ends in a nil
    dereference. *)
Theorem buildContext_outcomes (authKey operatorKey : K)
    (getenv : string -> string) (storage : S) :
  let name := if decide (getenv "POLARIS_MAIN_USER" = "") then "polaris"
              else getenv "POLARIS_MAIN_USER" in
  name <> ""
  /\ (forall user err,
        GetUserByName storage name "" = (user, Some err) ->
        buildContext authKey operatorKey getenv storage = Returned (Err err))
  /\ (forall user,
        GetUserByName storage name "" = (Some user, None) ->
        exists ctx,
          buildContext authKey operatorKey getenv storage = Returned (Ok ctx)
          /\ Value ctx operatorKey = Some "maintain-job"
          /\ (authKey <> operatorKey -> Value ctx authKey = Some (Token user)))
  /\ (GetUserByName storage name "" = (None, None) ->
      buildContext authKey operatorKey getenv storage = Panicked nil_dereference).
Proof.
  intros name. split; [| split; [| split]].
  - subst name. destruct (decide (getenv "POLARIS_MAIN_USER" = "")); [discriminate | assumption].
  - intros user err Hlookup. unfold buildContext, getMasterAccountToken.
    fold name. rewrite Hlookup. reflexivity.
  - intros user Hlookup. unfold buildContext, getMasterAccountToken.
    fold name. rewrite Hlookup. eexists. split; [reflexivity |].
    unfold WithValue, Background. cbn [Value]. split.
    + rewrite decide_True by reflexivity. reflexivity.
    + intros Hne. rewrite decide_False by congruence.
      rewrite decide_True by reflexivity. reflexivity.
  - intros Hlookup. unfold buildContext, getMasterAccountToken.
    fold name. rewrite Hlookup. reflexivity.
Qed.

End JobContextFacts.

Section JobContextScenarios.
Import JobContext.

Lemma buildContext_outcomes_example :
  (exists ctx,
     buildContext "token-key" "operator-key" (fun _ => "")
                  ({["polaris" := mkUser "secret"]} : gmap string User)
       = Returned (Ok ctx)
     /\ Value ctx "operator-key" = Some "maintain-job"
     /\ Value ctx "token-key" = Some "secret")
  /\ buildContext "token-key" "operator-key" (fun _ => "admin")
               ({["polaris" := mkUser "secret"]} : gmap string User)
    = Panicked nil_dereference.
Proof.
  split.
  - destruct (buildContext_outcomes "token-key" "operator-key" (fun _ => "")
                ({["polaris" := mkUser "secret"]} : gmap string User))
      as (_ & _ & Hfound & _).
    destruct (Hfound (mkUser "secret") eq_refl) as (ctx & Hctx & Hop & Htoken).
    exists ctx. split; [exact Hctx |]. split; [exact Hop |].
    apply Htoken. discriminate.
  - apply (buildContext_outcomes "token-key" "operator-key" (fun _ => "admin")
             ({["polaris" := mkUser "secret"]} : gmap string User)).
    reflexivity.
Defined.

End JobContextScenarios.

(** ** The evaluator at the bounds of int64 *)
Section HealthEvaluatorBounds.
Import Plugin HeartbeatMemory Scenario.

(** X8. Where the distance from the stored heartbeat time to the request time
    exceeds the largest int64 (a stored time far below zero), the code's
    difference wraps to a negative number: for a non-negative expire
    duration, an unsuspended [Check] then answers healthy=true, however old
    the heartbeat is. *)
Theorem Check_wrapped_difference_reads_fresh r nowMilli req :
  let L := lastHeartbeat r (CheckRequest.InstanceId req) in
  let C := CheckRequest.CurTimeSec req in
  let E := CheckRequest.ExpireDurationSec req in
  Int64.in_range L ->
  Int64.in_range C ->
  C - L > Int64.max_int ->
  0 <= E ->
  skipCheck r nowMilli (CheckRequest.InstanceId req) E = false ->
  Check r nowMilli req = Ok (CheckResponse.mk true L (CheckRequest.Healthy req)).
Proof.
  intros L C E HL HC Hfar HE Hskip.
  rewrite (Check_not_suspended _ _ _ Hskip). fold L C E.
  assert (Hwrap : Int64.sub C L = C - L - 2 ^ 64).
  { unfold Int64.sub, Int64.wrap, Int64.in_range, Int64.min_int, Int64.max_int in *.
    replace (C - L + 2 ^ 63) with ((C - L - 2 ^ 63) + 1 * 2 ^ 64) by lia.
    rewrite Z.mod_add by lia. rewrite Z.mod_small by lia. lia. }
  replace ((L <? C) && (E <=? Int64.sub C L)) with false.
  - destruct (CheckRequest.Healthy req); reflexivity.
  - symmetry. apply andb_false_iff. right. apply Z.leb_gt. rewrite Hwrap.
    unfold Int64.in_range, Int64.min_int, Int64.max_int in *. lia.
Qed.

Lemma Check_wrapped_difference_reads_fresh_example :
  Check (fst (Report fresh
                (ReportRequest.mk (QueryRequest.mk "i" "" 0 true) ""
                                  (-9223372036854775808) 1)))
        0 (checkRequest "i" true 50 1)
    = Ok (CheckResponse.mk true (-9223372036854775808) true).
Proof.
  apply (Check_wrapped_difference_reads_fresh
           (fst (Report fresh
                   (ReportRequest.mk (QueryRequest.mk "i" "" 0 true) ""
                                     (-9223372036854775808) 1)))
           0 (checkRequest "i" true 50 1)).
  - vm_compute. split; discriminate.
  - vm_compute. split; discriminate.
  - vm_compute. reflexivity.
  - vm_compute. discriminate.
  - vm_compute. reflexivity.
Defined.

End HealthEvaluatorBounds.
